(** * Brand-Governance: the issue overlay of [VisualAnnotationLayer]

    A shallow embedding of the React component [VisualAnnotationLayer]
    (the TSX document that follows the Tailwind configuration in
    [src/tailwind.config.js]): which issues become markers on which page,
    slide or video frame, where the markers are anchored, which badge they
    carry, and what selecting an issue does to the video element and to the
    carousel.

    JavaScript numbers are IEEE 754 binary64 values and are modelled by
    Rocq's primitive floats; arrays are lists; [undefined]/[null] are [None];
    the [Map] held in [pageRefs] is a [gmap]. *)

From Stdlib Require Import ZArith Floats.
From stdpp Require Import gmap strings list.

Open Scope Z_scope.

(** ** JavaScript values *)

Module JS.

(** Truthiness of a number: [0], [-0] and [NaN] are falsy. *)
Definition truthy (n : float) : bool :=
  negb (PrimFloat.eqb n 0 || PrimFloat.is_nan n).

(** Truthiness of a string: only the empty string is falsy. *)
Definition truthy_string (s : string) : bool :=
  negb (String.eqb s "").

(** [a || b] on numbers. *)
Definition or (a b : float) : float := if truthy a then a else b.

(** [a === s] where [a] may be [undefined] (or [null]) and [s] is a string. *)
Definition strict_eq (a : option string) (s : string) : bool :=
  match a with
  | Some a => String.eqb a s
  | None => false
  end.

(** [Array.prototype.findIndex]: the first index whose element satisfies
    the predicate, [-1] when there is none. *)
Fixpoint findIndexFrom {A : Type} (f : A → bool) (l : list A) (k : Z) : Z :=
  match l with
  | [] => -1
  | a :: l' => if f a then k else findIndexFrom f l' (k + 1)
  end.

Definition findIndex {A : Type} (f : A → bool) (l : list A) : Z :=
  findIndexFrom f l 0.

End JS.

(** ** Data model ([../types], imported by the component) *)

(** Modelled from the spec: the enumeration [AssetType] of [types.ts], which
    is not part of the sources at hand.  The five members are the ones the
    spec lists and [UploadSection.tsx] assigns. *)
Inductive AssetType := IMAGE | VIDEO | DOCUMENT | PRESENTATION | PODCAST.

Definition AssetType_eqb (a b : AssetType) : bool :=
  match a, b with
  | IMAGE, IMAGE | VIDEO, VIDEO | DOCUMENT, DOCUMENT
  | PRESENTATION, PRESENTATION | PODCAST, PODCAST => true
  | _, _ => false
  end.

(** Modelled from the spec: the severity of an issue, enumerated Low, Medium,
    High. *)
Inductive Severity := Low | Medium | High.

Module BoundingBox.
(** [{x, y, width, height}], percentages of the displayed asset. *)
Record t := mk { x : float; y : float; width : float; height : float }.
End BoundingBox.

Module Issue.
(** Modelled from the spec: the interface [Issue] of [types.ts].  The fields
    are the ones the component reads.  [page_number] is the optional
    1-based integer page or slide number; integers are exact in a JavaScript
    number, so it is an optional [Z].  [timestamp] is the optional position
    in seconds. *)
Record t := mk {
  id : string;
  category : string;
  severity : Severity;
  description : string;
  fix_ : string; (* the field [fix]; the name is reserved in Rocq *)
  boundingBox : option BoundingBox.t;
  page_number : option Z;
  timestamp : option float
}.
End Issue.

Module Slide.
Record t := mk { data : string; mimeType : string }.
End Slide.

(** [VisualAnnotationLayerProps], without the callback [onIssueSelect] (its
    calls are recorded in the [World] below) and the CSS [className]. *)
Record Props := mkProps {
  assetType : AssetType;
  src : string;
  issues : list Issue.t;
  selectedIssueId : option string;
  htmlContent : option string;
  mimeType : option string;
  visualSlides : option (list Slide.t)
}.

(** The [useState] cells of the component.  The zoom [scale] only feeds a CSS
    transform and [hoveredPageIndex] is never read; both are left out. *)
Record State := mkState {
  currentTime : float;
  duration : float;
  isPlaying : bool;
  hoveredMarkerId : option string;
  numPages : nat
}.

Definition initialState : State :=
  {| currentTime := 0; duration := 0; isPlaying := false;
     hoveredMarkerId := None; numPages := 0 |}.

(** ** Render mode *)

Definition isVideo (p : Props) : bool :=
  AssetType_eqb (assetType p) VIDEO
  || match mimeType p with
     | Some m => String.prefix "video/" m
     | None => false
     end.

Definition isPDF (p : Props) : bool :=
  match mimeType p with
  | Some m => String.eqb m "application/pdf"
  | None => false
  end.

Definition hasVisualSlides (p : Props) : bool :=
  match visualSlides p with
  | Some slides => (0 <? length slides)%nat
  | None => false
  end.

Definition useCarousel (p : Props) : bool := isPDF p || hasVisualSlides p.

Definition isDoc (p : Props) : bool :=
  match htmlContent p with
  | Some h => JS.truthy_string h
  | None => false
  end
  || AssetType_eqb (assetType p) DOCUMENT
  || AssetType_eqb (assetType p) PRESENTATION
  || isPDF p.

(** ** What is rendered *)

(** One marker element.  [key] is the React key, [left] and [top] the
    percentages of the inline style, [badge] the number in the dot,
    [selected] the emphasis ring, [tooltip] whether the tooltip is shown, and
    [source] the issue the element closes over (its severity picks the colour,
    its description fills the tooltip, its id is passed to [onIssueSelect] on
    click). *)
Record Marker := mkMarker {
  key : string;
  left : float;
  top : float;
  badge : Z;
  selected : bool;
  tooltip : bool;
  source : Issue.t
}.

(** One tick of the video seek bar. *)
Record Tick := mkTick {
  tick_key : string;
  tick_left : float;
  tick_tooltip : bool;
  tick_source : Issue.t
}.

Inductive View :=
| PdfCarousel (pages : list (list Marker))
| SlideCarousel (slides : list (list Marker))
| HtmlDocument (notice : bool) (annotations : list Marker)
| NoPreview
| VideoPlayer (progress : float) (timeline : list Tick) (playIcon : bool)
              (overlay : list Marker)
| ImageViewer (overlay : list Marker).

Section Render.

Variable p : Props.
Variable st : State.

Definition sameId (issue : Issue.t) (x : Issue.t) : bool :=
  String.eqb (Issue.id x) (Issue.id issue).

Definition hasBox (i : Issue.t) : bool :=
  match Issue.boundingBox i with Some _ => true | None => false end.

(** [issue.page_number === index + 1] *)
Definition pageIs (issue : Issue.t) (index : nat) : bool :=
  match Issue.page_number issue with
  | Some q => q =? Z.of_nat index + 1
  | None => false
  end.

(** [!issue.page_number]: [undefined] and [0] are falsy. *)
Definition noPage (issue : Issue.t) : bool :=
  match Issue.page_number issue with
  | Some q => q =? 0
  | None => true
  end.

(** The callback of [issues.map] in the annotation layer of PDF page
    [index + 1]; [None] is the [null] that React does not render. *)
Definition pdfPageMarker (index : nat) (issue : Issue.t) : option Marker :=
  let isPageMatch := pageIs issue index || (noPage issue && (index =? 0)%nat) in
  if negb isPageMatch then None else
  let globalIndex := JS.findIndex (sameId issue) (issues p) in
  match Issue.boundingBox issue with
  | None => None
  | Some box =>
    let centerX := (BoundingBox.x box + BoundingBox.width box / 2)%float in
    let centerY := (BoundingBox.y box + BoundingBox.height box / 2)%float in
    let isSelected := JS.strict_eq (selectedIssueId p) (Issue.id issue) in
    Some {| key := Issue.id issue; left := centerX; top := centerY;
            badge := globalIndex + 1; selected := isSelected;
            tooltip := JS.strict_eq (hoveredMarkerId st) (Issue.id issue);
            source := issue |}
  end.

(** The same callback in the annotation layer of slide [index + 1]. *)
Definition slideMarker (index : nat) (issue : Issue.t) : option Marker :=
  let isPageMatch := pageIs issue index || (noPage issue && (index =? 0)%nat) in
  if negb isPageMatch then None else
  let globalIndex := JS.findIndex (sameId issue) (issues p) in
  match Issue.boundingBox issue with
  | None => None
  | Some box =>
    let centerX := (BoundingBox.x box + BoundingBox.width box / 2)%float in
    let centerY := (BoundingBox.y box + BoundingBox.height box / 2)%float in
    let isSelected := JS.strict_eq (selectedIssueId p) (Issue.id issue) in
    Some {| key := Issue.id issue; left := centerX; top := centerY;
            badge := globalIndex + 1; selected := isSelected;
            tooltip := JS.strict_eq (hoveredMarkerId st) (Issue.id issue);
            source := issue |}
  end.

(** The callback of the floating annotations of an HTML document. *)
Definition htmlMarker (issue : Issue.t) : option Marker :=
  match Issue.boundingBox issue with
  | None => None
  | Some box =>
    let globalIndex := JS.findIndex (sameId issue) (issues p) in
    let centerX := (BoundingBox.x box + BoundingBox.width box / 2)%float in
    let centerY := (BoundingBox.y box + BoundingBox.height box / 2)%float in
    let isSelected := JS.strict_eq (selectedIssueId p) (Issue.id issue) in
    Some {| key := Issue.id issue; left := centerX; top := centerY;
            badge := globalIndex + 1; selected := isSelected;
            tooltip := false; source := issue |}
  end.

(** [issue.timestamp !== undefined && Math.abs(currentTime - issue.timestamp) < 3.0] *)
Definition inWindow (issue : Issue.t) : bool :=
  match Issue.timestamp issue with
  | Some ts => (PrimFloat.abs (currentTime st - ts) <? 3)%float
  | None => false
  end.

(** The callback of the zoomable overlay shared by images and videos. *)
Definition overlayMarker (issue : Issue.t) : option Marker :=
  let isSelected := JS.strict_eq (selectedIssueId p) (Issue.id issue) in
  let isVideoMatch := isVideo p && (isSelected || inWindow issue) in
  if isVideo p && negb isVideoMatch then None else
  match Issue.boundingBox issue with
  | None => None
  | Some box =>
    let globalIndex := JS.findIndex (sameId issue) (issues p) in
    let centerX := (BoundingBox.x box + BoundingBox.width box / 2)%float in
    let centerY := (BoundingBox.y box + BoundingBox.height box / 2)%float in
    Some {| key := Issue.id issue; left := centerX; top := centerY;
            badge := globalIndex + 1; selected := isSelected;
            tooltip := isSelected
                       || JS.strict_eq (hoveredMarkerId st) (Issue.id issue);
            source := issue |}
  end.

(** [issues.filter(i => i.timestamp !== undefined).map(...)] on the seek
    bar. *)
Definition hasTimestamp (i : Issue.t) : bool :=
  match Issue.timestamp i with Some _ => true | None => false end.

Definition timelineMarker (issue : Issue.t) : option Tick :=
  match Issue.timestamp issue with
  | None => None
  | Some ts =>
    Some {| tick_key := Issue.id issue;
            tick_left := (ts / JS.or (duration st) 1 * 100)%float;
            tick_tooltip := JS.strict_eq (hoveredMarkerId st) (Issue.id issue);
            tick_source := issue |}
  end.

Definition pdfAnnotationLayer (index : nat) : list Marker :=
  omap (pdfPageMarker index) (issues p).

Definition slideAnnotationLayer (index : nat) : list Marker :=
  omap (slideMarker index) (issues p).

Definition htmlAnnotations : list Marker :=
  let boxed := List.filter hasBox (issues p) in
  if (0 <? length boxed)%nat then omap htmlMarker boxed else [].

Definition annotationOverlay : list Marker :=
  omap overlayMarker (List.filter hasBox (issues p)).

Definition timelineMarkers : list Tick :=
  omap timelineMarker (List.filter hasTimestamp (issues p)).

(** The JSX returned by the component. *)
Definition render : View :=
  if isDoc p then
    if useCarousel p then
      if isPDF p then
        PdfCarousel (pdfAnnotationLayer <$> seq 0 (numPages st))
      else
        SlideCarousel
          (match visualSlides p with
           | Some slides => imap (λ index _, slideAnnotationLayer index) slides
           | None => []
           end)
    else
      match htmlContent p with
      | Some h =>
        if JS.truthy_string h then
          HtmlDocument
            ((length (List.filter hasBox (issues p)) =? 0)%nat
             && (0 <? length (issues p))%nat)
            htmlAnnotations
        else NoPreview
      | None => NoPreview
      end
  else
    if isVideo p then
      VideoPlayer (currentTime st / JS.or (duration st) 1 * 100)%float
                  timelineMarkers (negb (isPlaying st)) annotationOverlay
    else
      ImageViewer annotationOverlay.

End Render.

(** The annotation layers of a carousel, one per page or slide. *)
Definition carouselPages (v : View) : option (list (list Marker)) :=
  match v with
  | PdfCarousel pages => Some pages
  | SlideCarousel slides => Some slides
  | _ => None
  end.

(** Every marker placed over the asset, whatever the branch. *)
Definition placedMarkers (v : View) : list Marker :=
  match v with
  | PdfCarousel pages => concat pages
  | SlideCarousel slides => concat slides
  | HtmlDocument _ annotations => annotations
  | NoPreview => []
  | VideoPlayer _ _ _ overlay => overlay
  | ImageViewer overlay => overlay
  end.

Definition timeline (v : View) : list Tick :=
  match v with
  | VideoPlayer _ ticks _ _ => ticks
  | _ => []
  end.

(** Where a marker is and what it shows, without its styling. *)
Definition placement (m : Marker) : string * float * float * Z * Issue.t :=
  (key m, left m, top m, badge m, source m).


(** ** The DOM around the component *)

(** The properties of the [<video>] element the component reads and writes. *)
Record HTMLVideoElement := mkVideo {
  video_currentTime : float;
  video_duration : float;
  video_paused : bool
}.

(** The wrapper [<div>] of page or slide [index + 1]. *)
Inductive HTMLDivElement := PageWrapper (index : nat).

(** Calls that leave the component. *)
Inductive Call :=
| SetTimeout (ms : Z)
| OnIssueSelect (id : string)
| ScrollIntoView (pageEl : HTMLDivElement).

(** [videoRef.current], [pageRefs.current] and the calls made so far. *)
Record World := mkWorld {
  videoRef : option HTMLVideoElement;
  pageRefs : gmap Z HTMLDivElement;
  calls : list Call
}.

Definition call (c : Call) (w : World) : World :=
  {| videoRef := videoRef w; pageRefs := pageRefs w; calls := calls w ++ [c] |}.

(** A [<video>] element that has loaded nothing yet: its duration is [NaN]. *)
Definition freshVideo : HTMLVideoElement :=
  {| video_currentTime := 0; video_duration := PrimFloat.nan;
     video_paused := true |}.

(** [ref={(el) => { if (el) pageRefs.current.set(index + 1, el); }}] *)
Definition attachPage (refs : gmap Z HTMLDivElement) (index : nat)
  : gmap Z HTMLDivElement :=
  <[Z.of_nat index + 1 := PageWrapper index]> refs.

(** What React does to the refs when it commits a render: the page wrappers
    register themselves (and are never removed), the video element is
    attached while the player is shown. *)
Definition commitRefs (p : Props) (st : State) (w : World) : World :=
  match render p st with
  | PdfCarousel pages | SlideCarousel pages =>
    {| videoRef := None;
       pageRefs := foldl attachPage (pageRefs w) (seq 0 (length pages));
       calls := calls w |}
  | VideoPlayer _ _ _ _ =>
    {| videoRef := Some (default freshVideo (videoRef w));
       pageRefs := pageRefs w; calls := calls w |}
  | _ => {| videoRef := None; pageRefs := pageRefs w; calls := calls w |}
  end.

(** ** Selecting an issue *)

Definition handleSeekToIssue (p : Props) (issue : Issue.t) (w : World) : World :=
  let w' :=
    match Issue.timestamp issue, videoRef w with
    | Some ts, Some vid =>
      if isVideo p && JS.truthy ts then
        call (SetTimeout 200)
          {| videoRef := Some {| video_currentTime := ts;
                                 video_duration := video_duration vid;
                                 video_paused := true |};
             pageRefs := pageRefs w; calls := calls w |}
      else w
    | _, _ => w
    end in
  call (OnIssueSelect (Issue.id issue)) w'.

(** [issue.page_number || 1] *)
Definition pageOrFirst (issue : Issue.t) : Z :=
  match Issue.page_number issue with
  | Some q => if q =? 0 then 1 else q
  | None => 1
  end.

(** The effect that runs when [selectedIssueId] changes. *)
Definition onSelectionChange (p : Props) (w : World) : World :=
  match selectedIssueId p with
  | Some sid =>
    if JS.truthy_string sid then
      match List.find (λ i, String.eqb (Issue.id i) sid) (issues p) with
      | Some issue =>
        if isVideo p then handleSeekToIssue p issue w
        else if useCarousel p then
          let pageNum := pageOrFirst issue in
          match pageRefs w !! pageNum with
          | Some pageEl => call (ScrollIntoView pageEl) w
          | None => w
          end
        else w
      | None => w
      end
    else w
  | None => w
  end.

(** ** State updates *)

Definition handleTimeUpdate (w : World) (st : State) : State :=
  match videoRef w with
  | Some vid =>
    {| currentTime := video_currentTime vid; duration := duration st;
       isPlaying := isPlaying st; hoveredMarkerId := hoveredMarkerId st;
       numPages := numPages st |}
  | None => st
  end.

(** [setDuration(videoRef.current?.duration || 0)] *)
Definition onLoadedMetadata (w : World) (st : State) : State :=
  {| currentTime := currentTime st;
     duration := match videoRef w with
                 | Some vid => JS.or (video_duration vid) 0
                 | None => 0%float
                 end;
     isPlaying := isPlaying st; hoveredMarkerId := hoveredMarkerId st;
     numPages := numPages st |}.

Definition setIsPlaying (b : bool) (st : State) : State :=
  {| currentTime := currentTime st; duration := duration st;
     isPlaying := b; hoveredMarkerId := hoveredMarkerId st;
     numPages := numPages st |}.

Definition setHoveredMarkerId (h : option string) (st : State) : State :=
  {| currentTime := currentTime st; duration := duration st;
     isPlaying := isPlaying st; hoveredMarkerId := h;
     numPages := numPages st |}.

Definition onDocumentLoadSuccess (n : nat) (st : State) : State :=
  {| currentTime := currentTime st; duration := duration st;
     isPlaying := isPlaying st; hoveredMarkerId := hoveredMarkerId st;
     numPages := n |}.

(** The events the component listens to. *)
Inductive Event :=
| TimeUpdate
| LoadedMetadata
| Ended
| Play
| Pause
| MouseEnter (id : string)
| MouseLeave
| DocumentLoadSuccess (n : nat).

Definition handle (w : World) (e : Event) (st : State) : State :=
  match e with
  | TimeUpdate => handleTimeUpdate w st
  | LoadedMetadata => onLoadedMetadata w st
  | Ended | Pause => setIsPlaying false st
  | Play => setIsPlaying true st
  | MouseEnter id => setHoveredMarkerId (Some id) st
  | MouseLeave => setHoveredMarkerId None st
  | DocumentLoadSuccess n => onDocumentLoadSuccess n st
  end.

(** The states the component can be in: the initial one, and any state an
    event leads to, whatever the DOM holds at that moment. *)
Inductive reachable : State → Prop :=
| reachable_initial : reachable initialState
| reachable_handle st w e : reachable st → reachable (handle w e st).

(** A copy of the props with another selection. *)
Definition withSelection (sel : option string) (p : Props) : Props :=
  {| assetType := assetType p; src := src p; issues := issues p;
     selectedIssueId := sel; htmlContent := htmlContent p;
     mimeType := mimeType p; visualSlides := visualSlides p |}.

Definition withCurrentTime (t : float) (st : State) : State :=
  {| currentTime := t; duration := duration st; isPlaying := isPlaying st;
     hoveredMarkerId := hoveredMarkerId st; numPages := numPages st |}.

(** ** Sample data *)

Module Sample.

Definition box (x y w h : float) : BoundingBox.t :=
  {| BoundingBox.x := x; BoundingBox.y := y;
     BoundingBox.width := w; BoundingBox.height := h |}.

Definition issue (id : string) (b : option BoundingBox.t) (page : option Z)
    (ts : option float) : Issue.t :=
  {| Issue.id := id; Issue.category := "Brand"; Issue.severity := High;
     Issue.description := "Logo misuse"; Issue.fix_ := "Use the approved logo";
     Issue.boundingBox := b; Issue.page_number := page;
     Issue.timestamp := ts |}.

(** The example of the spec: [a] on page 1, [b] on page 2, [c] without a
    box. *)
Definition a : Issue.t := issue "a" (Some (box 10 10 5 5)) (Some 1) None.
Definition b : Issue.t := issue "b" (Some (box 50 50 5 5)) (Some 2) None.
Definition c : Issue.t := issue "c" None None (Some 10%float).

(** Issues with a malformed anchor. *)
Definition pageZero : Issue.t := issue "z" (Some (box 20 30 10 10)) (Some 0) None.
Definition pageSeven : Issue.t := issue "s" (Some (box 20 30 10 10)) (Some 7) None.
Definition beforeStart : Issue.t :=
  issue "n" (Some (box 20 30 10 10)) None (Some (-1)%float).
Definition atStart : Issue.t :=
  issue "o" (Some (box 20 30 10 10)) None (Some 0%float).
Definition later : Issue.t :=
  issue "t" (Some (box 40 40 20 10)) None (Some 42.5%float).
Definition offCanvas : Issue.t :=
  issue "x" (Some (box 150 (-20) 20 10)) (Some 1) None.

Definition pdf (l : list Issue.t) (sel : option string) : Props :=
  {| assetType := DOCUMENT; src := "report.pdf"; issues := l;
     selectedIssueId := sel; htmlContent := None;
     mimeType := Some "application/pdf"; visualSlides := None |}.


Definition video (l : list Issue.t) (sel : option string) : Props :=
  {| assetType := VIDEO; src := "spot.mp4"; issues := l;
     selectedIssueId := sel; htmlContent := None;
     mimeType := Some "video/mp4"; visualSlides := None |}.

Definition image (l : list Issue.t) (sel : option string) : Props :=
  {| assetType := IMAGE; src := "banner.png"; issues := l;
     selectedIssueId := sel; htmlContent := None;
     mimeType := Some "image/png"; visualSlides := None |}.

Definition pages (n : nat) : State :=
  {| currentTime := 0; duration := 0; isPlaying := false;
     hoveredMarkerId := None; numPages := n |}.

Definition playing (t d : float) : State :=
  {| currentTime := t; duration := d; isPlaying := true;
     hoveredMarkerId := None; numPages := 0 |}.

Definition emptyWorld : World :=
  {| videoRef := None; pageRefs := ∅; calls := [] |}.

End Sample.

(** ** Vocabulary of the statements *)

(** A layer shows a marker for [issue]. *)
Definition markerOn (layer : list Marker) (issue : Issue.t) : Prop :=
  ∃ m, m ∈ layer ∧ source m = issue.

(** The page rule in the words of the specification: a bounding box, and
    either the page number is the page, or there is no page number and the
    page is the first. *)
Definition specPageRule (issue : Issue.t) (page : Z) : Prop :=
  is_Some (Issue.boundingBox issue)
  ∧ (Issue.page_number issue = Some page
     ∨ (Issue.page_number issue = None ∧ page = 1)).

(** The page rule of the code: a page number of [0] counts as none. *)
Definition codePageRule (issue : Issue.t) (page : Z) : Prop :=
  is_Some (Issue.boundingBox issue)
  ∧ (Issue.page_number issue = Some page
     ∨ ((Issue.page_number issue = None ∨ Issue.page_number issue = Some 0)
        ∧ page = 1)).

(** [m] is the marker the code builds for [issue]: anchored at the centre of
    the box, numbered by the position of the first issue with the same id. *)
Definition markerOf (p : Props) (issue : Issue.t) (m : Marker) : Prop :=
  source m = issue
  ∧ key m = Issue.id issue
  ∧ badge m = JS.findIndex (sameId issue) (issues p) + 1
  ∧ ∃ box, Issue.boundingBox issue = Some box
      ∧ left m = (BoundingBox.x box + BoundingBox.width box / 2)%float
      ∧ top m = (BoundingBox.y box + BoundingBox.height box / 2)%float.

(** The placements of a carousel, page by page. *)
Definition carouselPlacements (v : View)
  : option (list (list (string * float * float * Z * Issue.t))) :=
  match carouselPages v with
  | Some pages => Some ((λ layer : list Marker, placement <$> layer) <$> pages)
  | None => None
  end.

(** * The rest of the component *)

(** ** [Math] *)

Module Math.

(** [Math.max(a, b)]: [NaN] as soon as one argument is [NaN]; [+0] counts as
    larger than [-0]. *)
Definition max (a b : float) : float :=
  if PrimFloat.is_nan a || PrimFloat.is_nan b then PrimFloat.nan
  else if (a <? b)%float then b
  else if (b <? a)%float then a
  else if PrimFloat.get_sign a then b else a.

(** [Math.min(a, b)]: [NaN] as soon as one argument is [NaN]; [-0] counts as
    smaller than [+0]. *)
Definition min (a b : float) : float :=
  if PrimFloat.is_nan a || PrimFloat.is_nan b then PrimFloat.nan
  else if (a <? b)%float then a
  else if (b <? a)%float then b
  else if PrimFloat.get_sign a then a else b.

(** The float of an integer below 2^53 in absolute value. *)
Definition ofZ (n : Z) : float :=
  if n <? 0 then (- PrimFloat.of_uint63 (Uint63.of_Z (- n)))%float
  else PrimFloat.of_uint63 (Uint63.of_Z n).

(** [Math.round(x)]: the integer nearest to [x], ties towards [+∞]; [NaN],
    the infinities and the zeros are returned as they are, and a result of
    zero keeps the sign of [x].  A finite float is [±m * 2^e]: with [e >= 0]
    it is an integer already, otherwise the rounding is
    [floor ((±2m + 2^-e) / 2^(1-e))], computed exactly with shifts. *)
Definition round (x : float) : float :=
  match Prim2SF x with
  | S754_finite s m e =>
    if 0 <=? e then x
    else
      let den := Z.shiftl 1 (- e) in
      let num := if s then Z.neg m else Z.pos m in
      let n := Z.shiftr (2 * num + den) (1 - e) in
      if n =? 0 then (if s then PrimFloat.neg_zero else PrimFloat.zero)
      else ofZ n
  | _ => x
  end.

End Math.

(** ** Zoom and seek bar *)

(** [handleWheel]; [scale] is the zoom cell ([useState(1)]) and [deltaY] the
    wheel delta of the event. *)
Definition handleWheel (p : Props) (deltaY : float) (scale : float) : float :=
  if isDoc p then scale
  else
    let delta := (- deltaY / 1000)%float in
    Math.min (Math.max 1 (scale + delta)%float) 4.

(** The click handler of the seek bar; [clientX] comes from the event,
    [rectLeft] and [rectWidth] from [getBoundingClientRect()]. *)
Definition seekBarClick (st : State) (clientX rectLeft rectWidth : float)
    (w : World) : World :=
  match videoRef w with
  | None => w
  | Some vid =>
    if negb (JS.truthy (duration st)) then w
    else
      let x := (clientX - rectLeft)%float in
      let percentage := Math.max 0 (Math.min 1 (x / rectWidth)%float) in
      {| videoRef := Some {| video_currentTime := (percentage * duration st)%float;
                             video_duration := video_duration vid;
                             video_paused := video_paused vid |};
         pageRefs := pageRefs w; calls := calls w |}
  end.

(** [isPageMatch] of the carousel callbacks, as a function. *)
Definition isPageMatch (issue : Issue.t) (index : nat) : bool :=
  pageIs issue index || (noPage issue && (index =? 0)%nat).

(** The condition under which the zoomable overlay keeps a boxed issue. *)
Definition overlayKeeps (p : Props) (st : State) (issue : Issue.t) : bool :=
  negb (isVideo p)
  || JS.strict_eq (selectedIssueId p) (Issue.id issue) || inWindow st issue.

(** * The other components *)

(** ** [AdminDashboard]: the key figures *)

Module Dashboard.

(** The interface [HistoryItem] is declared in [types.ts], which is not among
    the sources; the record has the fields the components read. *)
Record HistoryItem := mkItem {
  filename : string;
  date : string;
  type : option string;
  safetyStatus : string;
  topIssues : option (list string)
}.

(** ['7d' | '30d' | '90d'] *)
Inductive TimeRange := Days7 | Days30 | Days90.

Definition limit (timeRange : TimeRange) : nat :=
  match timeRange with Days7 => 7 | Days30 => 30 | Days90 => 90 end.

(** [history.slice(0, limit * 2)] *)
Definition rawData (history : list HistoryItem) (timeRange : TimeRange)
  : list HistoryItem :=
  take (limit timeRange * 2) history.

Record KPIs := mkKPIs {
  passRate : float;
  totalAnalyzed : nat;
  blockers : nat;
  timeSaved : float
}.

(** An array length as a JavaScript number. *)
Definition ofNat (n : nat) : float := Math.ofZ (Z.of_nat n).

Definition isSafe (h : HistoryItem) : bool := String.eqb (safetyStatus h) "Safe".

Definition isUnsafe (h : HistoryItem) : bool :=
  String.eqb (safetyStatus h) "Unsafe".

Definition kpis (rawData : list HistoryItem) : KPIs :=
  let total := length rawData in
  if (total =? 0)%nat then
    {| passRate := 0; totalAnalyzed := 0; blockers := 0; timeSaved := 0 |}
  else
    let safeCount := length (List.filter isSafe rawData) in
    let blockers := length (List.filter isUnsafe rawData) in
    let passRate := Math.round (ofNat safeCount / ofNat total * 100)%float in
    let timeSaved := Math.round (ofNat total * 0.75)%float in
    {| passRate := passRate; totalAnalyzed := total; blockers := blockers;
       timeSaved := timeSaved |}.

(** One bar of the asset-type chart; [worstAssetType] is the first one, or
    [undefined] when there is none. *)
Record AssetTypeStat := mkStat {
  name : string;
  fullName : string;
  rate : float;
  volume : nat
}.

(** The insight card, without its text (a template string around the
    figures). *)
Record Insight := mkInsight { title : string; color : string }.

Definition insight (kpis : KPIs) (worstAssetType : option AssetTypeStat)
  : Insight :=
  if (passRate kpis <? 50)%float then
    {| title := "Immediate Action Required"; color := "text-red-400" |}
  else
    match worstAssetType with
    | Some worst =>
      if (rate worst <? 60)%float then
        {| title := "Focus Area Identified"; color := "text-amber-400" |}
      else {| title := "System Healthy"; color := "text-emerald-400" |}
    | None => {| title := "System Healthy"; color := "text-emerald-400" |}
    end.

End Dashboard.

(** ** [AdminDashboard]: the category chart *)

Module Chart.

(** The counters [{ Brand: 0, Compliance: 0, Cultural: 0 }]. *)
Record Categories := mkCategories {
  Brand : nat;
  Compliance : nat;
  Cultural : nat
}.

(** A slice of the pie chart. *)
Record Slice := mkSlice { name : string; value : nat; color : string }.

(** [s.includes(sub)] *)
Definition includes (s sub : string) : bool :=
  match String.index 0 sub s with Some _ => true | None => false end.

(** The body of the inner [forEach]: one issue label increments one counter.
    [toLowerCase] stands for [String.prototype.toLowerCase]. *)
Definition countIssue (toLowerCase : string → string) (categories : Categories)
    (issue : string) : Categories :=
  let lower := toLowerCase issue in
  if includes lower "tone" || includes lower "voice" || includes lower "font"
     || includes lower "logo" || includes lower "style" then
    {| Brand := S (Brand categories); Compliance := Compliance categories;
       Cultural := Cultural categories |}
  else if includes lower "banned" || includes lower "claim"
          || includes lower "legal" || includes lower "verified"
          || includes lower "policy" then
    {| Brand := Brand categories; Compliance := S (Compliance categories);
       Cultural := Cultural categories |}
  else
    {| Brand := Brand categories; Compliance := Compliance categories;
       Cultural := S (Cultural categories) |}.

(** [h.topIssues?.forEach(...)] *)
Definition countItem (toLowerCase : string → string) (categories : Categories)
    (h : Dashboard.HistoryItem) : Categories :=
  match Dashboard.topIssues h with
  | Some labels => foldl (countIssue toLowerCase) categories labels
  | None => categories
  end.

Definition categoryBreakdown (toLowerCase : string → string)
    (rawData : list Dashboard.HistoryItem) : list Slice :=
  let categories :=
    foldl (countItem toLowerCase)
          {| Brand := 0; Compliance := 0; Cultural := 0 |} rawData in
  List.filter (λ c, (0 <? value c)%nat)
    [ {| name := "Brand"; value := Brand categories; color := "#6366f1" |};
      {| name := "Compliance"; value := Compliance categories;
         color := "#f59e0b" |};
      {| name := "Cultural"; value := Cultural categories;
         color := "#10b981" |} ].

(** The issue labels of a window, item by item. *)
Definition labels (rawData : list Dashboard.HistoryItem) : list string :=
  concat ((λ h, default [] (Dashboard.topIssues h)) <$> rawData).

End Chart.

(** ** [ToastProvider] *)

Module Toasts.

Inductive ToastType := success | error | info.

Record Toast := mkToast { id : string; message : string; type : ToastType }.

(** [addToast(message, type = 'info')]; [id] is the random string
    [Math.random().toString(36).substr(2, 9)] drawn by the call. *)
Definition addToast (id : string) (message : string) (type : option ToastType)
    (toasts : list Toast) : list Toast :=
  toasts ++ [ {| id := id; message := message; type := default info type |} ].

(** [removeToast(id)], also what the 5 s timer of [addToast] runs. *)
Definition removeToast (id : string) (toasts : list Toast) : list Toast :=
  List.filter (λ t, negb (String.eqb (Toasts.id t) id)) toasts.

End Toasts.

(** ** [UploadSection]: what [handleFile] does with a file *)

Module Upload.

(** [list.includes(ext)] *)
Definition includes (l : list string) (ext : string) : bool :=
  existsb (String.eqb ext) l.

(** The asset type chosen from [ext], the lower-cased text after the last dot
    of the file name. *)
Definition detectAssetType (ext : string) : AssetType :=
  if includes ["jpg"; "jpeg"; "png"; "webp"; "gif"] ext then IMAGE
  else if includes ["mp4"; "mov"; "avi"; "webm"] ext then VIDEO
  else if includes ["ppt"; "pptx"; "key"] ext then PRESENTATION
  else if includes ["mp3"; "wav"; "m4a"] ext then PODCAST
  else if includes ["pdf"] ext then DOCUMENT
  else DOCUMENT.

(** The branch of the file processing that [handleFile] takes. *)
Inductive Route := ExtractDocx | ReadBase64 | ReadText | Unsupported.

Definition route (ext fileType : string) : Route :=
  if String.eqb ext "docx" then ExtractDocx
  else if includes ["pdf"; "jpg"; "jpeg"; "png"; "webp"; "mp4"; "mov"; "avi";
                    "webm"; "mp3"; "wav"] ext then ReadBase64
  else if String.prefix "text/" fileType
          || includes ["txt"; "md"; "csv"; "json"] ext then ReadText
  else Unsupported.

(** [file.type || (ext === 'pdf' ? 'application/pdf' : file.type)], the MIME
    type stored with the base64 data. *)
Definition base64MimeType (ext fileType : string) : string :=
  if JS.truthy_string fileType then fileType
  else if String.eqb ext "pdf" then "application/pdf" else fileType.

End Upload.

(** * Properties *)

(** The example of the spec, evaluated. *)
Example spec_example :
  render (Sample.pdf [Sample.a; Sample.b; Sample.c] None) (Sample.pages 2)
  = PdfCarousel
      [ [ {| key := "a"; left := 12.5; top := 12.5; badge := 1;
             selected := false; tooltip := false; source := Sample.a |} ];
        [ {| key := "b"; left := 52.5; top := 52.5; badge := 2;
             selected := false; tooltip := false; source := Sample.b |} ] ].
Proof. vm_compute. reflexivity. Qed.

(** ** Lists and floats *)

Lemma elem_of_List_filter {A : Type} (f : A → bool) (l : list A) (x : A) :
  x ∈ List.filter f l ↔ x ∈ l ∧ f x = true.
Proof. rewrite !list_elem_of_In. apply filter_In. Qed.

Lemma elem_of_concat {A : Type} (ls : list (list A)) (x : A) :
  x ∈ concat ls ↔ ∃ l, x ∈ l ∧ l ∈ ls.
Proof.
  rewrite list_elem_of_In, in_concat. split.
  - intros (l & Hl & Hx). exists l. rewrite !list_elem_of_In. auto.
  - intros (l & Hx & Hl). exists l. rewrite <- !list_elem_of_In. auto.
Qed.

Lemma findIndexFrom_lookup {A : Type} (f : A → bool) (l : list A) (i : nat)
    (x : A) (k : Z) :
  l !! i = Some x → f x = true →
  (∀ j y, (j < i)%nat → l !! j = Some y → f y = false) →
  JS.findIndexFrom f l k = k + Z.of_nat i.
Proof.
  revert i k. induction l as [|a l IH]; intros i k Hi Hx Hbefore.
  - discriminate.
  - destruct i as [|i]; simpl in *.
    + injection Hi as ->. rewrite Hx. lia.
    + rewrite (Hbefore 0%nat a) by (lia || reflexivity).
      rewrite (IH i (k + 1)); [lia | assumption | assumption |].
      intros j y Hj Hy. apply (Hbefore (S j) y); [lia | exact Hy].
Qed.

Lemma findIndex_unique_ids (l : list Issue.t) (i : nat) (issue : Issue.t) :
  NoDup (Issue.id <$> l) → l !! i = Some issue →
  JS.findIndex (sameId issue) l = Z.of_nat i.
Proof.
  intros Hnd Hi. unfold JS.findIndex.
  rewrite (findIndexFrom_lookup _ l i issue 0 Hi).
  - lia.
  - unfold sameId. apply String.eqb_refl.
  - intros j y Hj Hy. unfold sameId. apply String.eqb_neq. intros Heq.
    assert (j = i) as ->; [|lia].
    apply (NoDup_lookup _ _ _ (Issue.id issue) Hnd);
      rewrite list_lookup_fmap; [rewrite Hy | rewrite Hi]; simpl; congruence.
Qed.

Lemma SFcompare_antisym (a b : spec_float) (c : comparison) :
  SFcompare a b = Some c → SFcompare b a = Some (CompOpp c).
Proof.
  destruct a as [s1|s1| |s1 m1 e1], b as [s2|s2| |s2 m2 e2]; simpl;
    try discriminate; intros [= <-];
    try (destruct s1; try destruct s2; reflexivity);
    try (destruct s2; reflexivity).
  destruct s1, s2; try reflexivity;
    rewrite (Z.compare_antisym e1 e2); destruct (e1 ?= e2)%Z; simpl;
    try reflexivity;
    rewrite (Pos.compare_cont_antisym m1 m2 Eq); simpl; reflexivity.
Qed.

(** [a >= b] excludes [a < b], also for infinities and [NaN]. *)
Lemma float_leb_not_ltb (a b : float) :
  (b <=? a)%float = true → (a <? b)%float = false.
Proof.
  rewrite leb_spec, ltb_spec. unfold SFleb, SFltb.
  destruct (SFcompare (Prim2SF b) (Prim2SF a)) as [c|] eqn:E; [|discriminate].
  rewrite (SFcompare_antisym _ _ _ E). destruct c; simpl; congruence.
Qed.

Lemma truthy_not_nan (d : float) :
  PrimFloat.is_nan (JS.or d 0) = false.
Proof.
  unfold JS.or, JS.truthy.
  destruct (PrimFloat.eqb d 0); simpl; [reflexivity|].
  destruct (PrimFloat.is_nan d) eqn:E; simpl; [reflexivity | exact E].
Qed.

Lemma or_one_not_nan (d : float) :
  PrimFloat.is_nan d = false →
  JS.or d 1 = if PrimFloat.eqb d 0 then 1%float else d.
Proof.
  intros H. unfold JS.or, JS.truthy. rewrite H.
  destruct (PrimFloat.eqb d 0); reflexivity.
Qed.

(** ** The marker callbacks *)

Lemma slideMarker_pdfPageMarker (p : Props) (st : State) :
  slideMarker p st = pdfPageMarker p st.
Proof. reflexivity. Qed.

Lemma isPageMatch_spec (issue : Issue.t) (index : nat) :
  pageIs issue index || (noPage issue && (index =? 0)%nat) = true
  ↔ Issue.page_number issue = Some (Z.of_nat index + 1)
    ∨ ((Issue.page_number issue = None ∨ Issue.page_number issue = Some 0)
       ∧ index = 0%nat).
Proof.
  unfold pageIs, noPage.
  rewrite orb_true_iff, andb_true_iff, Nat.eqb_eq.
  destruct (Issue.page_number issue) as [q|].
  - rewrite !Z.eqb_eq. split.
    + intros [->|[-> ->]]; [left; reflexivity | right; auto].
    + intros [[= ->]|[[[=]|[= ->]] ->]]; [left; reflexivity | right; auto].
  - split.
    + intros [[=]|[_ ->]]. right; auto.
    + intros [[=]|[_ ->]]. right; auto.
Qed.

Lemma pdfPageMarker_Some (p : Props) (st : State) (index : nat)
    (issue : Issue.t) (m : Marker) :
  pdfPageMarker p st index issue = Some m →
  markerOf p issue m
  ∧ pageIs issue index || (noPage issue && (index =? 0)%nat) = true.
Proof.
  unfold pdfPageMarker, markerOf.
  destruct (pageIs issue index || (noPage issue && (index =? 0)%nat));
    simpl; [|discriminate].
  destruct (Issue.boundingBox issue) as [box|]; [|discriminate].
  intros [= <-]; simpl. repeat split; eauto.
Qed.

Lemma pdfPageMarker_is_Some (p : Props) (st : State) (index : nat)
    (issue : Issue.t) :
  is_Some (pdfPageMarker p st index issue)
  ↔ is_Some (Issue.boundingBox issue)
    ∧ pageIs issue index || (noPage issue && (index =? 0)%nat) = true.
Proof.
  unfold pdfPageMarker.
  destruct (pageIs issue index || (noPage issue && (index =? 0)%nat)); simpl.
  - destruct (Issue.boundingBox issue); split;
      [eauto | eauto | intros []%is_Some_None | intros [[]%is_Some_None _]].
  - split; [intros []%is_Some_None | intros [_ [=]]].
Qed.

Lemma htmlMarker_Some (p : Props) (issue : Issue.t) (m : Marker) :
  htmlMarker p issue = Some m → markerOf p issue m.
Proof.
  unfold htmlMarker, markerOf.
  destruct (Issue.boundingBox issue) as [box|]; [|discriminate].
  intros [= <-]; simpl. repeat split; eauto.
Qed.

Lemma overlayMarker_Some (p : Props) (st : State) (issue : Issue.t)
    (m : Marker) :
  overlayMarker p st issue = Some m → markerOf p issue m.
Proof.
  unfold overlayMarker, markerOf.
  destruct (isVideo p && negb _); [discriminate|].
  destruct (Issue.boundingBox issue) as [box|]; [|discriminate].
  intros [= <-]; simpl. repeat split; eauto.
Qed.

(** On video the overlay callback keeps a boxed issue exactly when it is
    selected or inside the window; otherwise it keeps every boxed issue. *)
Lemma overlayMarker_is_Some (p : Props) (st : State) (issue : Issue.t) :
  is_Some (overlayMarker p st issue)
  ↔ is_Some (Issue.boundingBox issue)
    ∧ (isVideo p = true →
       JS.strict_eq (selectedIssueId p) (Issue.id issue) || inWindow st issue
       = true).
Proof.
  unfold overlayMarker.
  destruct (isVideo p); simpl;
    destruct (JS.strict_eq (selectedIssueId p) (Issue.id issue) || inWindow st issue);
    simpl; destruct (Issue.boundingBox issue); split;
    try (intros []%is_Some_None); try (intros [[]%is_Some_None _]);
    try (intros [_ H]; discriminate H; reflexivity); eauto.
Qed.

Lemma markerOn_omap (f : Issue.t → option Marker) (l : list Issue.t)
    (issue : Issue.t) :
  (∀ x m, f x = Some m → source m = x) →
  markerOn (omap f l) issue ↔ issue ∈ l ∧ is_Some (f issue).
Proof.
  intros Hsrc. unfold markerOn. split.
  - intros (m & [x [Hx Hm]]%list_elem_of_omap & <-).
    rewrite (Hsrc x m Hm). eauto.
  - intros [Hin [m Hm]]. exists m. split; [|eauto].
    apply list_elem_of_omap. eauto.
Qed.

Lemma pdfPageMarker_source (p : Props) (st : State) (index : nat)
    (x : Issue.t) (m : Marker) :
  pdfPageMarker p st index x = Some m → source m = x.
Proof. intros H. apply pdfPageMarker_Some in H as [[-> _] _]. reflexivity. Qed.

Lemma overlayMarker_source (p : Props) (st : State) (x : Issue.t) (m : Marker) :
  overlayMarker p st x = Some m → source m = x.
Proof. intros H. apply overlayMarker_Some in H as [-> _]. reflexivity. Qed.

(** ** The rendered tree *)

(** Every layer of a carousel, PDF or slides, is the annotation layer of its
    index. *)
Lemma carousel_layer (p : Props) (st : State) (pages : list (list Marker))
    (index : nat) (layer : list Marker) :
  carouselPages (render p st) = Some pages →
  pages !! index = Some layer →
  layer = pdfAnnotationLayer p st index.
Proof.
  unfold render.
  destruct (isDoc p); [destruct (useCarousel p); [destruct (isPDF p)|]|].
  - intros [= <-]. rewrite list_lookup_fmap.
    destruct (seq 0 (numPages st) !! index) as [k|] eqn:E; [|discriminate].
    apply lookup_seq in E as [-> _]. intros [= <-]. reflexivity.
  - destruct (visualSlides p) as [slides|]; intros [= <-].
    + rewrite list_lookup_imap.
      destruct (slides !! index); [|discriminate]. intros [= <-]. reflexivity.
    + rewrite lookup_nil. discriminate.
  - destruct (htmlContent p) as [h|]; [destruct (JS.truthy_string h)|];
      discriminate.
  - destruct (isVideo p); discriminate.
Qed.

Lemma render_video (p : Props) (st : State) :
  isDoc p = false → isVideo p = true →
  render p st
  = VideoPlayer (currentTime st / JS.or (duration st) 1 * 100)%float
      (timelineMarkers p st) (negb (isPlaying st)) (annotationOverlay p st).
Proof. intros Hdoc Hvid. unfold render. rewrite Hdoc, Hvid. reflexivity. Qed.

Lemma render_image (p : Props) (st : State) :
  isDoc p = false → isVideo p = false →
  render p st = ImageViewer (annotationOverlay p st).
Proof. intros Hdoc Hvid. unfold render. rewrite Hdoc, Hvid. reflexivity. Qed.

Lemma markerOn_overlay (p : Props) (st : State) (issue : Issue.t) :
  markerOn (annotationOverlay p st) issue
  ↔ issue ∈ issues p ∧ is_Some (overlayMarker p st issue).
Proof.
  unfold annotationOverlay.
  rewrite markerOn_omap by apply overlayMarker_source.
  rewrite elem_of_List_filter, overlayMarker_is_Some. unfold hasBox.
  destruct (Issue.boundingBox issue) as [box|].
  - intuition eauto.
  - split; [intros [[_ [=]] _] | intros [_ [[]%is_Some_None _]]].
Qed.

Lemma layer_markerOf (p : Props) (st : State) (index : nat) (m : Marker) :
  m ∈ pdfAnnotationLayer p st index →
  ∃ issue, issue ∈ issues p ∧ markerOf p issue m.
Proof.
  intros [issue [Hin Hm]]%list_elem_of_omap.
  apply pdfPageMarker_Some in Hm as [Hm _]. eauto.
Qed.

(** Whatever the branch, a placed marker was built from an issue of the
    list. *)
Lemma placedMarkers_markerOf (p : Props) (st : State) (m : Marker) :
  m ∈ placedMarkers (render p st) →
  ∃ issue, issue ∈ issues p ∧ markerOf p issue m.
Proof.
  destruct (render p st) as [pages|pages|notice html| |pr tl pi ov|ov] eqn:R;
    simpl.
  - intros (layer & Hm & Hl)%elem_of_concat.
    apply list_elem_of_lookup in Hl as [index Hl].
    rewrite (carousel_layer p st pages index layer) in Hm
      by (rewrite ?R; eauto).
    eapply layer_markerOf; eauto.
  - intros (layer & Hm & Hl)%elem_of_concat.
    apply list_elem_of_lookup in Hl as [index Hl].
    rewrite (carousel_layer p st pages index layer) in Hm
      by (rewrite ?R; eauto).
    eapply layer_markerOf; eauto.
  - assert (html = htmlAnnotations p) as ->.
    { revert R. unfold render.
      destruct (isDoc p); [destruct (useCarousel p); [destruct (isPDF p)|]|];
        try discriminate.
      - destruct (htmlContent p) as [h|]; [destruct (JS.truthy_string h)|];
          try discriminate. intros [= _ <-]. reflexivity.
      - destruct (isVideo p); discriminate. }
    unfold htmlAnnotations. destruct (0 <? _)%nat; [|intros []%elem_of_nil].
    intros [issue [[Hin _]%elem_of_List_filter Hm]]%list_elem_of_omap.
    apply htmlMarker_Some in Hm. eauto.
  - intros []%elem_of_nil.
  - assert (ov = annotationOverlay p st) as ->.
    { revert R. unfold render.
      destruct (isDoc p); [destruct (useCarousel p); [destruct (isPDF p)|]|];
        try discriminate.
      - destruct (htmlContent p) as [h|]; [destruct (JS.truthy_string h)|];
          discriminate.
      - destruct (isVideo p); [|discriminate]. intros [= _ _ _ <-].
        reflexivity. }
    intros [issue [[Hin _]%elem_of_List_filter Hm]]%list_elem_of_omap.
    apply overlayMarker_Some in Hm. eauto.
  - assert (ov = annotationOverlay p st) as ->.
    { revert R. unfold render.
      destruct (isDoc p); [destruct (useCarousel p); [destruct (isPDF p)|]|];
        try discriminate.
      - destruct (htmlContent p) as [h|]; [destruct (JS.truthy_string h)|];
          discriminate.
      - destruct (isVideo p); [discriminate|]. intros [= <-]. reflexivity. }
    intros [issue [[Hin _]%elem_of_List_filter Hm]]%list_elem_of_omap.
    apply overlayMarker_Some in Hm. eauto.
Qed.

(** ** C1: which issues a carousel page shows *)

(** C1, as stated, fails: an issue with a bounding box and page number 0 is
    drawn on page 1 of a PDF, although its page number is not 1 and it does
    have a page number. *)
Lemma C1_page_zero_counterexample :
  carouselPages (render (Sample.pdf [Sample.pageZero] None) (Sample.pages 2))
  = Some [ [ {| key := "z"; left := 25; top := 35; badge := 1;
                selected := false; tooltip := false;
                source := Sample.pageZero |} ]; [] ]
  ∧ markerOn [ {| key := "z"; left := 25; top := 35; badge := 1;
                  selected := false; tooltip := false;
                  source := Sample.pageZero |} ] Sample.pageZero
  ∧ ¬ specPageRule Sample.pageZero 1.
Proof.
  split; [vm_compute; reflexivity|]. split.
  - eexists. split; [apply list_elem_of_here | reflexivity].
  - intros [_ [[=]|[[=] _]]].
Qed.

(** C1 (amended): on every rendered page or slide of a carousel, PDF or
    slide deck, an issue of the list has a marker exactly when it has a
    bounding box and either its page number is that page, or the page is the
    first and the page number is absent or 0.  An issue with a bounding box
    and a page number [q] other than 0 has a marker on page [q] and on no
    other page. *)
Theorem C1_page_rule (p : Props) (st : State) (pages : list (list Marker))
    (index : nat) (layer : list Marker) (issue : Issue.t) :
  carouselPages (render p st) = Some pages →
  pages !! index = Some layer →
  issue ∈ issues p →
  (markerOn layer issue ↔ codePageRule issue (Z.of_nat index + 1))
  ∧ (∀ q, Issue.page_number issue = Some q → q ≠ 0 →
          is_Some (Issue.boundingBox issue) →
          (markerOn layer issue ↔ q = Z.of_nat index + 1)).
Proof.
  intros Hpages Hlayer Hin.
  rewrite (carousel_layer p st pages index layer Hpages Hlayer).
  unfold pdfAnnotationLayer.
  assert (markerOn (omap (pdfPageMarker p st index) (issues p)) issue
          ↔ codePageRule issue (Z.of_nat index + 1)) as Hrule.
  { rewrite markerOn_omap by apply pdfPageMarker_source.
    rewrite pdfPageMarker_is_Some, isPageMatch_spec. unfold codePageRule.
    assert (index = 0%nat ↔ Z.of_nat index + 1 = 1) as -> by lia.
    tauto. }
  split; [exact Hrule|].
  intros q Hq Hq0 Hbox. rewrite Hrule. unfold codePageRule. rewrite Hq.
  split.
  - intros [_ [[= ->]|[[[=]|[= ->]] _]]]; [reflexivity | contradiction].
  - intros ->. auto.
Qed.

Lemma C1_page_rule_witness :
  (markerOn [ {| key := "a"; left := 12.5; top := 12.5; badge := 1;
                 selected := false; tooltip := false; source := Sample.a |} ]
            Sample.a
   ↔ codePageRule Sample.a (Z.of_nat 0 + 1))
  ∧ (∀ q, Issue.page_number Sample.a = Some q → q ≠ 0 →
          is_Some (Issue.boundingBox Sample.a) →
          (markerOn [ {| key := "a"; left := 12.5; top := 12.5; badge := 1;
                         selected := false; tooltip := false;
                         source := Sample.a |} ] Sample.a
           ↔ q = Z.of_nat 0 + 1)).
Proof.
  apply (C1_page_rule (Sample.pdf [Sample.a; Sample.b; Sample.c] None)
           (Sample.pages 2)
           [ [ {| key := "a"; left := 12.5; top := 12.5; badge := 1;
                  selected := false; tooltip := false; source := Sample.a |} ];
             [ {| key := "b"; left := 52.5; top := 52.5; badge := 2;
                  selected := false; tooltip := false; source := Sample.b |} ] ]
           0%nat).
  - vm_compute. reflexivity.
  - reflexivity.
  - apply list_elem_of_here.
Defined.

(** ** C9: selection does not change what a carousel shows *)

Lemma pdfPageMarker_placement (p : Props) (st : State) (sel : option string)
    (index : nat) (issue : Issue.t) :
  placement <$> pdfPageMarker (withSelection sel p) st index issue
  = placement <$> pdfPageMarker p st index issue.
Proof.
  unfold pdfPageMarker.
  destruct (negb _); [reflexivity|].
  destruct (Issue.boundingBox issue); reflexivity.
Qed.

Lemma omap_placement (f g : Issue.t → option Marker) (l : list Issue.t) :
  (∀ x, placement <$> f x = placement <$> g x) →
  placement <$> omap f l = placement <$> omap g l.
Proof.
  intros Hfg. induction l as [|x l IH]; [reflexivity|]. cbn.
  specialize (Hfg x).
  destruct (f x) as [m|], (g x) as [m'|]; cbn in *; try discriminate.
  - f_equal; [congruence | exact IH].
  - exact IH.
Qed.

Lemma layer_placement (p : Props) (st : State) (sel : option string)
    (index : nat) :
  placement <$> pdfAnnotationLayer (withSelection sel p) st index
  = placement <$> pdfAnnotationLayer p st index.
Proof.
  unfold pdfAnnotationLayer. apply omap_placement. intros x.
  apply pdfPageMarker_placement.
Qed.

(** C9: on a carousel, PDF or slide deck, two renders that differ only in
    the selected issue show the same markers on every page, at the same
    places and with the same badges; the selection only restyles them. *)
Theorem C9_selection_keeps_carousel_markers (p : Props) (st : State)
    (sel : option string) :
  carouselPlacements (render (withSelection sel p) st)
  = carouselPlacements (render p st).
Proof.
  unfold carouselPlacements, render.
  change (isDoc (withSelection sel p)) with (isDoc p).
  change (useCarousel (withSelection sel p)) with (useCarousel p).
  change (isPDF (withSelection sel p)) with (isPDF p).
  change (isVideo (withSelection sel p)) with (isVideo p).
  change (htmlContent (withSelection sel p)) with (htmlContent p).
  change (visualSlides (withSelection sel p)) with (visualSlides p).
  destruct (isDoc p); [destruct (useCarousel p); [destruct (isPDF p)|]|].
  - simpl. f_equal. apply list_eq. intros i.
    rewrite !list_lookup_fmap.
    destruct (seq 0 (numPages st) !! i); simpl; [|reflexivity].
    f_equal. apply layer_placement.
  - simpl. f_equal. destruct (visualSlides p) as [slides|]; [|reflexivity].
    apply list_eq. intros i.
    rewrite !list_lookup_fmap, !list_lookup_imap.
    destruct (slides !! i); simpl; [|reflexivity].
    f_equal. apply layer_placement.
  - destruct (htmlContent p) as [h|]; [destruct (JS.truthy_string h)|];
      reflexivity.
  - destruct (isVideo p); reflexivity.
Qed.

Example carousel_selection_example :
  carouselPlacements
    (render (Sample.pdf [Sample.a; Sample.b; Sample.c] (Some "b"))
            (Sample.pages 2))
  = Some [ [ ("a", 12.5%float, 12.5%float, 1, Sample.a) ];
           [ ("b", 52.5%float, 52.5%float, 2, Sample.b) ] ].
Proof. vm_compute. reflexivity. Qed.

(** On video, by contrast, the selection decides inclusion: at 0:00 the issue
    anchored at 42.5 s is shown only while it is selected. *)
Example video_selection_forces_inclusion :
  placedMarkers (render (Sample.video [Sample.later] None)
                        (Sample.playing 0 60)) = []
  ∧ placement <$> placedMarkers (render (Sample.video [Sample.later] (Some "t"))
                                        (Sample.playing 0 60))
    = [ ("t", 50%float, 45%float, 1, Sample.later) ].
Proof. split; vm_compute; reflexivity. Qed.

(** ** C3: badges *)

Lemma sameId_key (p : Props) (issue : Issue.t) (m : Marker) :
  markerOf p issue m →
  badge m
  = JS.findIndex (λ x, String.eqb (Issue.id x) (key m)) (issues p) + 1.
Proof. intros (_ & -> & -> & _). reflexivity. Qed.

(** C3: when the ids of the list are unique, the badge of every placed
    marker, in every branch and view state, is 1 + the position in the
    original list of the issue it stands for, which is the position of its
    id; and a marker with the same id carries the same badge under any other
    selection, page count, playback time or hover. *)
Theorem C3_badge_is_list_position (p : Props) (st : State) (m : Marker) :
  NoDup (Issue.id <$> issues p) →
  m ∈ placedMarkers (render p st) →
  (∃ i : nat,
      (Issue.id <$> issues p) !! i = Some (key m)
      ∧ issues p !! i = Some (source m)
      ∧ badge m = 1 + Z.of_nat i)
  ∧ (∀ sel' st' m',
        m' ∈ placedMarkers (render (withSelection sel' p) st') →
        key m' = key m → badge m' = badge m).
Proof.
  intros Hnd Hm.
  destruct (placedMarkers_markerOf p st m Hm) as (issue & Hin & Hof).
  split.
  - destruct Hof as (Hsrc & Hkey & Hbadge & _).
    apply list_elem_of_lookup in Hin as [i Hi].
    exists i. rewrite list_lookup_fmap, Hi, Hsrc, Hkey, Hbadge.
    rewrite (findIndex_unique_ids _ i issue Hnd Hi).
    repeat split. lia.
  - intros sel' st' m' Hm' Hkey.
    destruct (placedMarkers_markerOf _ st' m' Hm') as (issue' & _ & Hof').
    rewrite (sameId_key _ _ _ Hof), (sameId_key _ _ _ Hof'), Hkey.
    reflexivity.
Qed.

Lemma C3_badge_is_list_position_witness :
  (∃ i : nat,
      (Issue.id <$> [Sample.a; Sample.b; Sample.c]) !! i = Some "b"
      ∧ [Sample.a; Sample.b; Sample.c] !! i = Some Sample.b
      ∧ 2 = 1 + Z.of_nat i)
  ∧ (∀ sel' st' m',
        m' ∈ placedMarkers
               (render (withSelection sel'
                          (Sample.pdf [Sample.a; Sample.b; Sample.c] None)) st') →
        key m' = "b" → badge m' = 2).
Proof.
  apply (C3_badge_is_list_position
           (Sample.pdf [Sample.a; Sample.b; Sample.c] None) (Sample.pages 2)
           {| key := "b"; left := 52.5; top := 52.5; badge := 2;
              selected := false; tooltip := false; source := Sample.b |}).
  - vm_compute. repeat constructor; rewrite ?elem_of_cons, ?elem_of_nil;
      intuition discriminate.
  - vm_compute. apply list_elem_of_further, list_elem_of_here.
Defined.

(** ** C6: no bounding box, no marker *)

(** C6: in every branch (PDF carousel, slide carousel, HTML document, image,
    video) and every view state, no placed marker stands for an issue that
    has no bounding box. *)
Theorem C6_no_box_no_marker (p : Props) (st : State) (issue : Issue.t) :
  Issue.boundingBox issue = None →
  ¬ markerOn (placedMarkers (render p st)) issue.
Proof.
  intros Hnone (m & Hm & Hsrc).
  destruct (placedMarkers_markerOf p st m Hm)
    as (issue' & _ & Hsrc' & _ & _ & box & Hbox & _).
  congruence.
Qed.

Lemma C6_no_box_no_marker_witness :
  ¬ markerOn (placedMarkers
                (render (Sample.video [Sample.a; Sample.b; Sample.c] (Some "c"))
                        (Sample.playing 10 60)))
             Sample.c.
Proof.
  apply (C6_no_box_no_marker
           (Sample.video [Sample.a; Sample.b; Sample.c] (Some "c"))
           (Sample.playing 10 60) Sample.c).
  reflexivity.
Defined.

(** ** C7: the anchor of a marker *)

(** C7: every placed marker is anchored at the centre of the bounding box of
    its issue, [x + width / 2] and [y + height / 2] in JavaScript (binary64)
    arithmetic, whatever the values: nothing is clamped or rejected. *)
Theorem C7_anchor_is_box_centre (p : Props) (st : State) (m : Marker)
    (box : BoundingBox.t) :
  m ∈ placedMarkers (render p st) →
  Issue.boundingBox (source m) = Some box →
  left m = (BoundingBox.x box + BoundingBox.width box / 2)%float
  ∧ top m = (BoundingBox.y box + BoundingBox.height box / 2)%float.
Proof.
  intros Hm Hbox.
  destruct (placedMarkers_markerOf p st m Hm)
    as (issue & _ & Hsrc & _ & _ & box' & Hbox' & Hleft & Htop).
  rewrite Hsrc, Hbox' in Hbox. injection Hbox as <-. auto.
Qed.

Lemma C7_anchor_is_box_centre_witness :
  160%float = (150 + 20 / 2)%float ∧ (-15)%float = (-20 + 10 / 2)%float.
Proof.
  apply (C7_anchor_is_box_centre
           (Sample.image [Sample.offCanvas] None) (Sample.pages 0)
           {| key := "x"; left := 160; top := -15; badge := 1;
              selected := false; tooltip := false;
              source := Sample.offCanvas |}
           (Sample.box 150 (-20) 20 10)).
  - vm_compute. apply list_elem_of_here.
  - reflexivity.
Defined.

(** ** C8: images show every boxed issue *)

(** C8: when the component shows a static image (neither a document nor a
    video), every issue of the list that has a bounding box has a marker,
    whatever its page number or timestamp, the selection, the hover and the
    rest of the state. *)
Theorem C8_image_shows_all_boxed (p : Props) (st : State) (issue : Issue.t) :
  isDoc p = false → isVideo p = false →
  issue ∈ issues p →
  is_Some (Issue.boundingBox issue) →
  markerOn (placedMarkers (render p st)) issue.
Proof.
  intros Hdoc Hvid Hin Hbox.
  rewrite (render_image p st Hdoc Hvid). simpl.
  apply markerOn_overlay. split; [exact Hin|].
  apply overlayMarker_is_Some. split; [exact Hbox|].
  rewrite Hvid. discriminate.
Qed.

Lemma C8_image_shows_all_boxed_witness :
  markerOn (placedMarkers
              (render (Sample.image [Sample.pageSeven; Sample.later] (Some "t"))
                      (Sample.playing 0 0)))
           Sample.pageSeven.
Proof.
  apply (C8_image_shows_all_boxed
           (Sample.image [Sample.pageSeven; Sample.later] (Some "t"))
           (Sample.playing 0 0) Sample.pageSeven).
  - reflexivity.
  - reflexivity.
  - apply list_elem_of_here.
  - eexists. reflexivity.
Defined.

(** ** C2: the three-second window on video *)

(** C2: while the video player is shown, an issue of the list with a
    bounding box has an overlay marker exactly when it is the selected issue
    or it has a timestamp [ts] with [|currentTime - ts| < 3.0]; with
    [|currentTime - ts| >= 3.0] and another or no selection it has none. *)
Theorem C2_video_window (p : Props) (st : State) (issue : Issue.t) :
  isDoc p = false → isVideo p = true →
  issue ∈ issues p →
  is_Some (Issue.boundingBox issue) →
  (markerOn (placedMarkers (render p st)) issue
   ↔ selectedIssueId p = Some (Issue.id issue)
     ∨ ∃ ts, Issue.timestamp issue = Some ts
             ∧ (PrimFloat.abs (currentTime st - ts) <? 3)%float = true)
  ∧ (∀ ts, Issue.timestamp issue = Some ts →
           (3 <=? PrimFloat.abs (currentTime st - ts))%float = true →
           selectedIssueId p ≠ Some (Issue.id issue) →
           ¬ markerOn (placedMarkers (render p st)) issue).
Proof.
  intros Hdoc Hvid Hin Hbox.
  assert (markerOn (placedMarkers (render p st)) issue
          ↔ selectedIssueId p = Some (Issue.id issue)
            ∨ ∃ ts, Issue.timestamp issue = Some ts
                    ∧ (PrimFloat.abs (currentTime st - ts) <? 3)%float = true)
    as Hiff.
  { rewrite (render_video p st Hdoc Hvid). simpl.
    rewrite markerOn_overlay, overlayMarker_is_Some, orb_true_iff.
    unfold JS.strict_eq, inWindow.
    destruct (selectedIssueId p) as [sel|];
      destruct (Issue.timestamp issue) as [ts|];
      rewrite ?String.eqb_eq; split.
    - intros (_ & _ & [->|Hw]); auto. right; eauto.
    - intros [[= ->]|(ts' & [= <-] & Hw)]; auto.
    - intros (_ & _ & [->|[=]]); auto.
    - intros [[= ->]|(ts' & [=] & _)]; auto.
    - intros (_ & _ & [[=]|Hw]); auto. right; eauto.
    - intros [[=]|(ts' & [= <-] & Hw)]; auto.
    - intros (_ & _ & [[=]|[=]]); auto.
    - intros [[=]|(ts' & [=] & _)]. }
  split; [exact Hiff|].
  intros ts Hts Hfar Hsel. rewrite Hiff.
  intros [Heq|(ts' & Hts' & Hnear)]; [contradiction|].
  rewrite Hts in Hts'. injection Hts' as <-.
  rewrite (float_leb_not_ltb _ _ Hfar) in Hnear. discriminate.
Qed.

Lemma C2_video_window_witness :
  markerOn (placedMarkers (render (Sample.video [Sample.later] None)
                                  (Sample.playing 41 60))) Sample.later
  ∧ ¬ markerOn (placedMarkers (render (Sample.video [Sample.later] None)
                                      (Sample.playing 10 60))) Sample.later.
Proof.
  split.
  - apply (proj1 (C2_video_window (Sample.video [Sample.later] None)
                    (Sample.playing 41 60) Sample.later
                    eq_refl eq_refl (list_elem_of_here _ _)
                    (ex_intro _ _ eq_refl))).
    right. exists 42.5%float. split; reflexivity.
  - apply (proj2 (C2_video_window (Sample.video [Sample.later] None)
                    (Sample.playing 10 60) Sample.later
                    eq_refl eq_refl (list_elem_of_here _ _)
                    (ex_intro _ _ eq_refl))
             42.5%float).
    + reflexivity.
    + reflexivity.
    + discriminate.
Defined.

(** ** C10: the ticks of the seek bar *)

(** The [duration] cell never holds [NaN]: it starts at 0 and is only set to
    [videoRef.current?.duration || 0]. *)
Lemma reachable_duration_not_nan (st : State) :
  reachable st → PrimFloat.is_nan (duration st) = false.
Proof.
  induction 1 as [|st w e _ IH]; [reflexivity|].
  destruct e; simpl; try exact IH.
  - unfold handleTimeUpdate. destruct (videoRef w); exact IH.
  - destruct (videoRef w); [apply truthy_not_nan | reflexivity].
Qed.

Lemma timelineMarker_tick (p : Props) (st : State) (issue : Issue.t)
    (ts : float) :
  issue ∈ issues p → Issue.timestamp issue = Some ts →
  {| tick_key := Issue.id issue;
     tick_left := (ts / JS.or (duration st) 1 * 100)%float;
     tick_tooltip := JS.strict_eq (hoveredMarkerId st) (Issue.id issue);
     tick_source := issue |} ∈ timelineMarkers p st.
Proof.
  intros Hin Hts. unfold timelineMarkers. apply list_elem_of_omap.
  exists issue. split.
  - apply elem_of_List_filter. split; [exact Hin|].
    unfold hasTimestamp. rewrite Hts. reflexivity.
  - unfold timelineMarker. rewrite Hts. reflexivity.
Qed.

(** C10: while the video player is shown, every issue of the list with a
    timestamp, boxed or not, has a tick on the seek bar at
    [timestamp / duration * 100] percent, with 1 in place of a duration of 0;
    the ticks do not depend on the playback time. *)
Theorem C10_timeline_ticks (p : Props) (st : State) (issue : Issue.t)
    (ts : float) :
  isDoc p = false → isVideo p = true →
  reachable st →
  issue ∈ issues p →
  Issue.timestamp issue = Some ts →
  (∃ t, t ∈ timeline (render p st)
        ∧ tick_source t = issue
        ∧ tick_left t
          = (ts / (if (duration st =? 0)%float then 1 else duration st)
             * 100)%float)
  ∧ (∀ t', timeline (render p (withCurrentTime t' st))
           = timeline (render p st)).
Proof.
  intros Hdoc Hvid Hreach Hin Hts. split.
  - rewrite (render_video p st Hdoc Hvid). simpl.
    eexists. split; [apply (timelineMarker_tick p st issue ts Hin Hts)|].
    simpl. split; [reflexivity|].
    rewrite (or_one_not_nan _ (reachable_duration_not_nan st Hreach)).
    reflexivity.
  - intros t'. rewrite !render_video by assumption. reflexivity.
Qed.

Lemma C10_timeline_ticks_witness :
  (∃ t, t ∈ timeline
              (render (Sample.video [Sample.a; Sample.c] None)
                 (handle {| videoRef := Some (mkVideo 0 40 true);
                            pageRefs := ∅; calls := [] |}
                         LoadedMetadata initialState))
        ∧ tick_source t = Sample.c
        ∧ tick_left t = (10 / (if (40 =? 0)%float then 1 else 40) * 100)%float)
  ∧ (∀ t', timeline
             (render (Sample.video [Sample.a; Sample.c] None)
                (withCurrentTime t'
                   (handle {| videoRef := Some (mkVideo 0 40 true);
                              pageRefs := ∅; calls := [] |}
                           LoadedMetadata initialState)))
           = timeline
               (render (Sample.video [Sample.a; Sample.c] None)
                  (handle {| videoRef := Some (mkVideo 0 40 true);
                             pageRefs := ∅; calls := [] |}
                          LoadedMetadata initialState))).
Proof.
  apply (C10_timeline_ticks (Sample.video [Sample.a; Sample.c] None)
           (handle {| videoRef := Some (mkVideo 0 40 true);
                      pageRefs := ∅; calls := [] |}
                   LoadedMetadata initialState)
           Sample.c 10%float).
  - reflexivity.
  - reflexivity.
  - apply reachable_handle, reachable_initial.
  - apply list_elem_of_further, list_elem_of_here.
  - reflexivity.
Defined.

(** Before the metadata arrives the duration is 0 and the tick of the issue
    at 10 s is drawn at 1000 percent. *)
Example tick_without_duration :
  tick_left <$> timeline (render (Sample.video [Sample.c] None) initialState)
  = [1000%float].
Proof. vm_compute. reflexivity. Qed.

(** ** C4: selecting an issue *)

(** After a commit the wrappers of pages 1 to [n] are registered. *)
Lemma attachPages_lookup (refs : gmap Z HTMLDivElement) (n : nat) (q : Z) :
  foldl attachPage refs (seq 0 n) !! q
  = if decide (1 ≤ q ≤ Z.of_nat n)
    then Some (PageWrapper (Z.to_nat (q - 1)))
    else refs !! q.
Proof.
  induction n as [|n IH].
  - simpl. destruct (decide (1 ≤ q ≤ Z.of_nat 0)); [lia | reflexivity].
  - rewrite seq_S, foldl_app. simpl. unfold attachPage at 1.
    rewrite lookup_insert, IH.
    destruct (decide (Z.of_nat n + 1 = q)) as [<-|Hne].
    + destruct (decide (1 ≤ Z.of_nat n + 1 ≤ Z.of_nat (S n))); [|lia].
      do 2 f_equal. lia.
    + destruct (decide (1 ≤ q ≤ Z.of_nat n)),
               (decide (1 ≤ q ≤ Z.of_nat (S n))); (reflexivity || lia).
Qed.


(** C4, as stated, fails on a paginated asset: with the three pages of a PDF
    rendered and registered, selecting the issue whose page number is 7
    scrolls nowhere. *)
Lemma C4_unrendered_page_counterexample :
  isVideo (Sample.pdf [Sample.pageSeven] (Some "s")) = false
  ∧ useCarousel (Sample.pdf [Sample.pageSeven] (Some "s")) = true
  ∧ Issue.page_number Sample.pageSeven = Some 7
  ∧ pageRefs (commitRefs (Sample.pdf [Sample.pageSeven] (Some "s"))
                         (Sample.pages 3) Sample.emptyWorld) !! 3
    = Some (PageWrapper 2)
  ∧ calls (onSelectionChange (Sample.pdf [Sample.pageSeven] (Some "s"))
             (commitRefs (Sample.pdf [Sample.pageSeven] (Some "s"))
                         (Sample.pages 3) Sample.emptyWorld))
    = [].
Proof. repeat split; vm_compute; reflexivity. Qed.

(** C4 (amended): selecting an issue of the list (a non-empty id; the first
    issue carrying it) has these effects.  In video mode, when the video
    element is mounted and the timestamp of the issue is neither 0 nor NaN,
    the playback position is set to exactly that timestamp and the video is
    paused; after the 200 ms timer the selection is reported.  On a carousel
    that is not in video mode, the wrapper registered for the page number of
    the issue, or for page 1 when the page number is absent or 0, is scrolled
    into view; when no wrapper is registered for that page nothing happens. *)
Theorem C4_selection_effect (p : Props) (w : World) (sid : string)
    (issue : Issue.t) :
  selectedIssueId p = Some sid → sid ≠ "" →
  List.find (λ i, String.eqb (Issue.id i) sid) (issues p) = Some issue →
  (isVideo p = true →
   ∀ ts vid, Issue.timestamp issue = Some ts → JS.truthy ts = true →
             videoRef w = Some vid →
     onSelectionChange p w
     = {| videoRef := Some {| video_currentTime := ts;
                              video_duration := video_duration vid;
                              video_paused := true |};
          pageRefs := pageRefs w;
          calls := calls w ++ [SetTimeout 200; OnIssueSelect (Issue.id issue)] |})
  ∧ (isVideo p = false → useCarousel p = true →
     ∀ page,
       (Issue.page_number issue = Some page ∧ page ≠ 0)
       ∨ ((Issue.page_number issue = None ∨ Issue.page_number issue = Some 0)
          ∧ page = 1) →
       (∀ pageEl, pageRefs w !! page = Some pageEl →
                  onSelectionChange p w = call (ScrollIntoView pageEl) w)
       ∧ (pageRefs w !! page = None → onSelectionChange p w = w)).
Proof.
  intros Hsel Hsid Hfind. unfold onSelectionChange. rewrite Hsel.
  assert (JS.truthy_string sid = true) as ->.
  { unfold JS.truthy_string. apply negb_true_iff, String.eqb_neq, Hsid. }
  rewrite Hfind. split.
  - intros Hvideo ts vid Hts Htruthy Hvid.
    unfold handleSeekToIssue, call. rewrite Hvideo, Hts, Hvid, Htruthy. simpl.
    rewrite <- app_assoc. reflexivity.
  - intros -> -> page Hpage.
    assert (pageOrFirst issue = page) as ->.
    { unfold pageOrFirst.
      destruct Hpage as [[-> Hne]|[[->| ->] ->]]; try reflexivity.
      destruct (Z.eqb_spec page 0); [contradiction | reflexivity]. }
    split.
    + intros pageEl ->. reflexivity.
    + intros ->. reflexivity.
Qed.

Lemma C4_selection_effect_witness :
  onSelectionChange (Sample.video [Sample.a; Sample.later] (Some "t"))
    {| videoRef := Some (mkVideo 3 60 false); pageRefs := ∅; calls := [] |}
  = {| videoRef := Some (mkVideo 42.5 60 true); pageRefs := ∅;
       calls := [SetTimeout 200; OnIssueSelect "t"] |}
  ∧ onSelectionChange (Sample.pdf [Sample.a; Sample.b; Sample.c] (Some "b"))
      (commitRefs (Sample.pdf [Sample.a; Sample.b; Sample.c] (Some "b"))
                  (Sample.pages 3) Sample.emptyWorld)
    = call (ScrollIntoView (PageWrapper 1))
        (commitRefs (Sample.pdf [Sample.a; Sample.b; Sample.c] (Some "b"))
                    (Sample.pages 3) Sample.emptyWorld).
Proof.
  split.
  - apply (proj1 (C4_selection_effect
                    (Sample.video [Sample.a; Sample.later] (Some "t"))
                    {| videoRef := Some (mkVideo 3 60 false);
                       pageRefs := ∅; calls := [] |}
                    "t" Sample.later eq_refl ltac:(discriminate) eq_refl)
             eq_refl 42.5%float (mkVideo 3 60 false)); reflexivity.
  - apply (proj2 (C4_selection_effect
                    (Sample.pdf [Sample.a; Sample.b; Sample.c] (Some "b"))
                    (commitRefs
                       (Sample.pdf [Sample.a; Sample.b; Sample.c] (Some "b"))
                       (Sample.pages 3) Sample.emptyWorld)
                    "b" Sample.b eq_refl ltac:(discriminate) eq_refl)
             eq_refl eq_refl 2).
    + left. split; [reflexivity | discriminate].
    + vm_compute. reflexivity.
Defined.

(** The two halves of C4 on the data of the spec: the seek to 42.5 s with a
    pause, and the scroll to page 2 of a committed three-page PDF. *)
Example select_seeks_and_pauses :
  onSelectionChange (Sample.video [Sample.a; Sample.later] (Some "t"))
    {| videoRef := Some (mkVideo 3 60 false); pageRefs := ∅; calls := [] |}
  = {| videoRef := Some (mkVideo 42.5 60 true); pageRefs := ∅;
       calls := [SetTimeout 200; OnIssueSelect "t"] |}.
Proof. vm_compute. reflexivity. Qed.

Example select_scrolls_to_page :
  calls (onSelectionChange (Sample.pdf [Sample.a; Sample.b; Sample.c] (Some "b"))
           (commitRefs (Sample.pdf [Sample.a; Sample.b; Sample.c] (Some "b"))
                       (Sample.pages 3) Sample.emptyWorld))
  = [ScrollIntoView (PageWrapper 1)]
  ∧ calls (onSelectionChange (Sample.pdf [Sample.a; Sample.b; Sample.c] (Some "c"))
             (commitRefs (Sample.pdf [Sample.a; Sample.b; Sample.c] (Some "c"))
                         (Sample.pages 3) Sample.emptyWorld))
    = [ScrollIntoView (PageWrapper 0)].
Proof. split; vm_compute; reflexivity. Qed.

(** [handleSeekToIssue] tests [issue.timestamp] for truthiness, so an issue
    anchored at 0:00 is selected without a seek or a pause, while the overlay
    and the seek bar test [issue.timestamp !== undefined]. *)
Example select_at_zero_does_not_seek :
  onSelectionChange (Sample.video [Sample.atStart] (Some "o"))
    {| videoRef := Some (mkVideo 30 60 false); pageRefs := ∅; calls := [] |}
  = {| videoRef := Some (mkVideo 30 60 false); pageRefs := ∅;
       calls := [OnIssueSelect "o"] |}.
Proof. vm_compute. reflexivity. Qed.

(** ** C5: malformed anchors *)

(** C5, as stated, fails: nothing validates the anchors.  At 0:00 the issue
    with timestamp -1 is inside the window and is drawn on the video, and the
    issue with page number 0 is drawn on page 1 of a PDF. *)
Lemma C5_malformed_anchor_counterexample :
  (Issue.timestamp Sample.beforeStart = Some (-1)%float
   ∧ markerOn (placedMarkers (render (Sample.video [Sample.beforeStart] None)
                                     (Sample.playing 0 60)))
              Sample.beforeStart)
  ∧ (Issue.page_number Sample.pageZero = Some 0
     ∧ markerOn (placedMarkers (render (Sample.pdf [Sample.pageZero] None)
                                       (Sample.pages 2)))
                Sample.pageZero).
Proof.
  split; (split; [reflexivity|]); eexists;
    (split; [vm_compute; apply list_elem_of_here | reflexivity]).
Qed.

(** C5 (amended): malformed anchors are not rejected, they go through the
    ordinary rules.  On a carousel, PDF or slide deck, an issue whose page
    number is negative or greater than the number of rendered pages has no
    marker on any rendered page.  On video, an issue with a negative
    timestamp that is not selected has no marker while the playback time is
    3.0 s or more away from that timestamp.  (The computation is a total
    function: it has no error path.) *)
Theorem C5_malformed_anchor_rules (p : Props) (st : State) (issue : Issue.t) :
  (∀ pages q layer,
      carouselPages (render p st) = Some pages →
      Issue.page_number issue = Some q →
      q < 0 ∨ Z.of_nat (length pages) < q →
      layer ∈ pages →
      ¬ markerOn layer issue)
  ∧ (∀ ts,
        isDoc p = false → isVideo p = true →
        Issue.timestamp issue = Some ts →
        (ts <? 0)%float = true →
        selectedIssueId p ≠ Some (Issue.id issue) →
        (3 <=? PrimFloat.abs (currentTime st - ts))%float = true →
        ¬ markerOn (placedMarkers (render p st)) issue).
Proof.
  split.
  - intros pages q layer Hpages Hq Hrange [index Hlayer]%list_elem_of_lookup.
    pose proof (lookup_lt_Some _ _ _ Hlayer) as Hlt.
    rewrite (carousel_layer p st pages index layer Hpages Hlayer).
    intros (m & [x [_ Hm]]%list_elem_of_omap & <-).
    apply pdfPageMarker_Some in Hm as [[Hsrc _] Hmatch]. subst x.
    apply isPageMatch_spec in Hmatch. rewrite Hq in Hmatch.
    destruct Hmatch as [[= ->]|[[[=]|[= ->]] _]]; lia.
  - intros ts Hdoc Hvid Hts _ Hsel Hfar.
    rewrite (render_video p st Hdoc Hvid). simpl.
    intros [_ Hsome]%markerOn_overlay.
    apply overlayMarker_is_Some in Hsome as [_ Hrule].
    specialize (Hrule Hvid). apply orb_true_iff in Hrule as [Heq|Hwin].
    + unfold JS.strict_eq in Heq.
      destruct (selectedIssueId p) as [sel|]; [|discriminate].
      apply String.eqb_eq in Heq. subst sel. contradiction.
    + unfold inWindow in Hwin. rewrite Hts in Hwin.
      rewrite (float_leb_not_ltb _ _ Hfar) in Hwin. discriminate.
Qed.

Lemma C5_malformed_anchor_rules_witness :
  ¬ markerOn [ {| key := "a"; left := 12.5; top := 12.5; badge := 1;
                  selected := false; tooltip := false; source := Sample.a |} ]
             Sample.pageSeven
  ∧ ¬ markerOn (placedMarkers
                  (render (Sample.video [Sample.beforeStart] None)
                          (Sample.playing 10 60)))
               Sample.beforeStart.
Proof.
  split.
  - apply (proj1 (C5_malformed_anchor_rules
                    (Sample.pdf [Sample.a; Sample.pageSeven] None)
                    (Sample.pages 2) Sample.pageSeven)
             [ [ {| key := "a"; left := 12.5; top := 12.5; badge := 1;
                    selected := false; tooltip := false;
                    source := Sample.a |} ]; [] ]
             7).
    + vm_compute. reflexivity.
    + reflexivity.
    + right. simpl. lia.
    + apply list_elem_of_here.
  - apply (proj2 (C5_malformed_anchor_rules
                    (Sample.video [Sample.beforeStart] None)
                    (Sample.playing 10 60) Sample.beforeStart)
             (-1)%float).
    + reflexivity.
    + reflexivity.
    + reflexivity.
    + reflexivity.
    + discriminate.
    + reflexivity.
Defined.

(** * The rest of the component: properties *)

(** ** Float comparisons *)

Lemma float_ltb_leb (a b : float) :
  (a <? b)%float = true → (a <=? b)%float = true.
Proof.
  rewrite ltb_spec, leb_spec. unfold SFltb, SFleb.
  destruct (SFcompare (Prim2SF a) (Prim2SF b)) as [[]|]; congruence.
Qed.

Lemma not_nan_SF (a : float) :
  PrimFloat.is_nan a = false → Prim2SF a ≠ S754_nan.
Proof.
  unfold PrimFloat.is_nan. rewrite negb_false_iff, FloatAxioms.eqb_spec. unfold SFeqb.
  intros H E. rewrite E in H. discriminate.
Qed.

Lemma SFcompare_defined (a b : spec_float) :
  a ≠ S754_nan → b ≠ S754_nan → ∃ c, SFcompare a b = Some c.
Proof.
  destruct a, b; simpl; intros Ha Hb; try contradiction; eauto.
Qed.

(** Two floats that are not [NaN] are comparable. *)
Lemma float_not_ltb_leb (a b : float) :
  PrimFloat.is_nan a = false → PrimFloat.is_nan b = false →
  (a <? b)%float = false → (b <=? a)%float = true.
Proof.
  intros Ha%not_nan_SF Hb%not_nan_SF.
  rewrite ltb_spec, leb_spec. unfold SFltb, SFleb.
  destruct (SFcompare_defined _ _ Ha Hb) as [c E]. rewrite E.
  rewrite (SFcompare_antisym _ _ _ E). destruct c; simpl; congruence.
Qed.

Lemma float_leb_refl (a : float) :
  PrimFloat.is_nan a = false → (a <=? a)%float = true.
Proof.
  unfold PrimFloat.is_nan. rewrite negb_false_iff, FloatAxioms.eqb_spec, leb_spec.
  unfold SFeqb, SFleb.
  destruct (SFcompare (Prim2SF a) (Prim2SF a)) as [[]|]; congruence.
Qed.

Lemma max_bounds (a b : float) :
  PrimFloat.is_nan a = false → PrimFloat.is_nan b = false →
  (a <=? Math.max a b)%float = true
  ∧ (b <=? Math.max a b)%float = true
  ∧ (Math.max a b = a ∨ Math.max a b = b).
Proof.
  intros Ha Hb. unfold Math.max. rewrite Ha, Hb. simpl.
  destruct (a <? b)%float eqn:Hab.
  { auto using float_ltb_leb, float_leb_refl. }
  destruct (b <? a)%float eqn:Hba.
  { auto using float_ltb_leb, float_leb_refl. }
  destruct (PrimFloat.get_sign a);
    auto 6 using float_not_ltb_leb, float_leb_refl.
Qed.

Lemma min_bounds (a b : float) :
  PrimFloat.is_nan a = false → PrimFloat.is_nan b = false →
  (Math.min a b <=? a)%float = true
  ∧ (Math.min a b <=? b)%float = true
  ∧ (Math.min a b = a ∨ Math.min a b = b).
Proof.
  intros Ha Hb. unfold Math.min. rewrite Ha, Hb. simpl.
  destruct (a <? b)%float eqn:Hab.
  { auto using float_ltb_leb, float_leb_refl. }
  destruct (b <? a)%float eqn:Hba.
  { auto using float_ltb_leb, float_leb_refl. }
  destruct (PrimFloat.get_sign a);
    auto 6 using float_not_ltb_leb, float_leb_refl.
Qed.

(** ** Zoom *)

(** X1: a wheel event never zooms a document; on an image or video the new
    scale lies between 1 and 4 whenever [scale - deltaY / 1000] is a number,
    and is [NaN] when it is not. *)
Theorem handleWheel_clamped (p : Props) (deltaY scale : float) :
  (isDoc p = true → handleWheel p deltaY scale = scale)
  ∧ (isDoc p = false →
     PrimFloat.is_nan (scale + - deltaY / 1000)%float = false →
     (1 <=? handleWheel p deltaY scale)%float = true
     ∧ (handleWheel p deltaY scale <=? 4)%float = true)
  ∧ (isDoc p = false →
     PrimFloat.is_nan (scale + - deltaY / 1000)%float = true →
     PrimFloat.is_nan (handleWheel p deltaY scale) = true).
Proof.
  unfold handleWheel. split; [|split].
  - intros ->. reflexivity.
  - intros -> Hx.
    destruct (max_bounds 1 _ eq_refl Hx) as (Hlo & _ & Hm).
    assert (PrimFloat.is_nan (Math.max 1 (scale + - deltaY / 1000)%float) = false)
      as Hnan by (destruct Hm as [-> | ->]; [reflexivity | exact Hx]).
    destruct (min_bounds _ 4 Hnan eq_refl) as (_ & Hhi & Hcase).
    split; [|exact Hhi].
    destruct Hcase as [-> | ->]; [exact Hlo | reflexivity].
  - intros -> Hx. unfold Math.max, Math.min. rewrite Hx. reflexivity.
Qed.

Lemma handleWheel_clamped_witness :
  handleWheel (Sample.pdf [] None) (-500) 1 = 1%float
  ∧ ((1 <=? handleWheel (Sample.image [] None) (-50000) 1)%float = true
     ∧ (handleWheel (Sample.image [] None) (-50000) 1 <=? 4)%float = true)
  ∧ PrimFloat.is_nan (handleWheel (Sample.image [] None) PrimFloat.nan 1)
    = true.
Proof.
  split; [|split].
  - apply (proj1 (handleWheel_clamped (Sample.pdf [] None) (-500) 1)).
    reflexivity.
  - apply (proj1 (proj2 (handleWheel_clamped (Sample.image [] None)
                           (-50000) 1))); reflexivity.
  - apply (proj2 (proj2 (handleWheel_clamped (Sample.image [] None)
                           PrimFloat.nan 1))); reflexivity.
Defined.

(** X2: a click on the seek bar does nothing while the video element is not
    mounted or the duration is 0; otherwise it only moves the playback
    position, to [percentage * duration] with [percentage] between 0 and 1
    (when the click offset divided by the bar width is a number), and leaves
    the paused flag, the page wrappers and the call log alone. *)
Theorem seekBarClick_clamped (st : State) (clientX rectLeft rectWidth : float)
    (w : World) :
  (videoRef w = None ∨ JS.truthy (duration st) = false →
   seekBarClick st clientX rectLeft rectWidth w = w)
  ∧ (∀ vid, videoRef w = Some vid → JS.truthy (duration st) = true →
       PrimFloat.is_nan ((clientX - rectLeft) / rectWidth)%float = false →
       ∃ percentage,
         (0 <=? percentage)%float = true ∧ (percentage <=? 1)%float = true
         ∧ seekBarClick st clientX rectLeft rectWidth w
           = {| videoRef :=
                  Some {| video_currentTime := (percentage * duration st)%float;
                          video_duration := video_duration vid;
                          video_paused := video_paused vid |};
                pageRefs := pageRefs w; calls := calls w |}).
Proof.
  unfold seekBarClick. split.
  - intros [-> | Hd]; [reflexivity|]. rewrite Hd.
    destruct (videoRef w); reflexivity.
  - intros vid -> -> Hq. simpl. eexists. split; [|split; [|reflexivity]].
    + destruct (min_bounds 1 _ eq_refl Hq) as (_ & _ & Hm).
      assert (PrimFloat.is_nan
                (Math.min 1 ((clientX - rectLeft) / rectWidth)%float) = false)
        as Hnan by (destruct Hm as [-> | ->]; [reflexivity | exact Hq]).
      apply (max_bounds 0 _ eq_refl Hnan).
    + destruct (min_bounds 1 _ eq_refl Hq) as (Hle & _ & Hm).
      assert (PrimFloat.is_nan
                (Math.min 1 ((clientX - rectLeft) / rectWidth)%float) = false)
        as Hnan by (destruct Hm as [-> | ->]; [reflexivity | exact Hq]).
      destruct (max_bounds 0 _ eq_refl Hnan) as (_ & _ & [-> | ->]);
        [reflexivity | exact Hle].
Qed.

Lemma seekBarClick_clamped_witness :
  seekBarClick (Sample.playing 5 0) 150 100 200
    {| videoRef := Some (mkVideo 5 60 false); pageRefs := ∅; calls := [] |}
  = {| videoRef := Some (mkVideo 5 60 false); pageRefs := ∅; calls := [] |}
  ∧ ∃ percentage,
      (0 <=? percentage)%float = true ∧ (percentage <=? 1)%float = true
      ∧ seekBarClick (Sample.playing 5 60) 150 100 200
          {| videoRef := Some (mkVideo 5 60 false); pageRefs := ∅; calls := [] |}
        = {| videoRef :=
               Some {| video_currentTime := (percentage * 60)%float;
                       video_duration := 60; video_paused := false |};
             pageRefs := ∅; calls := [] |}.
Proof.
  split.
  - apply (proj1 (seekBarClick_clamped (Sample.playing 5 0) 150 100 200
                    {| videoRef := Some (mkVideo 5 60 false);
                       pageRefs := ∅; calls := [] |})).
    right. reflexivity.
  - apply (proj2 (seekBarClick_clamped (Sample.playing 5 60) 150 100 200
                    {| videoRef := Some (mkVideo 5 60 false);
                       pageRefs := ∅; calls := [] |})
             (mkVideo 5 60 false)); reflexivity.
Defined.

(** ** Which markers, in which order *)

Lemma hasBox_is_Some (x : Issue.t) :
  is_Some (Issue.boundingBox x) ↔ hasBox x = true.
Proof.
  unfold hasBox. destruct (Issue.boundingBox x); split;
    [reflexivity | eauto | intros []%is_Some_None | discriminate].
Qed.

Lemma omap_sources (f : Issue.t → option Marker) (g : Issue.t → bool)
    (l : list Issue.t) :
  (∀ x m, f x = Some m → source m = x) →
  (∀ x, is_Some (f x) ↔ g x = true) →
  source <$> omap f l = List.filter g l.
Proof.
  intros Hsrc Hg. induction l as [|x l IH]; [reflexivity|]. cbn.
  destruct (f x) as [m|] eqn:E.
  - rewrite (proj1 (Hg x)) by (rewrite E; eauto). cbn.
    rewrite (Hsrc x m E). f_equal. exact IH.
  - destruct (g x) eqn:G; [|exact IH].
    apply Hg in G. rewrite E in G. destruct (is_Some_None G).
Qed.

Lemma filter_andb {A : Type} (f g : A → bool) (l : list A) :
  List.filter g (List.filter f l) = List.filter (λ x, f x && g x) l.
Proof.
  induction l as [|x l IH]; [reflexivity|]. simpl.
  destruct (f x); simpl; [destruct (g x)|]; rewrite IH; reflexivity.
Qed.

Lemma pdfPageMarker_keeps (p : Props) (st : State) (index : nat)
    (x : Issue.t) :
  is_Some (pdfPageMarker p st index x)
  ↔ hasBox x && isPageMatch x index = true.
Proof.
  rewrite pdfPageMarker_is_Some, hasBox_is_Some, andb_true_iff.
  reflexivity.
Qed.

Lemma overlayMarker_keeps (p : Props) (st : State) (x : Issue.t) :
  is_Some (overlayMarker p st x) ↔ hasBox x && overlayKeeps p st x = true.
Proof.
  rewrite overlayMarker_is_Some, hasBox_is_Some, andb_true_iff.
  unfold overlayKeeps. destruct (isVideo p); simpl; intuition congruence.
Qed.

Lemma htmlMarker_keeps (p : Props) (x : Issue.t) :
  is_Some (htmlMarker p x) ↔ hasBox x = true.
Proof.
  rewrite <- hasBox_is_Some. unfold htmlMarker.
  destruct (Issue.boundingBox x); split; eauto; intros []%is_Some_None.
Qed.

Lemma htmlMarker_source (p : Props) (x : Issue.t) (m : Marker) :
  htmlMarker p x = Some m → source m = x.
Proof. intros H. apply htmlMarker_Some in H as [-> _]. reflexivity. Qed.

Lemma layer_sources (p : Props) (st : State) (index : nat) :
  source <$> pdfAnnotationLayer p st index
  = List.filter (λ i, hasBox i && isPageMatch i index) (issues p).
Proof.
  apply omap_sources;
    [apply pdfPageMarker_source | apply pdfPageMarker_keeps].
Qed.

Lemma overlay_sources (p : Props) (st : State) :
  source <$> annotationOverlay p st
  = List.filter (λ i, hasBox i && overlayKeeps p st i) (issues p).
Proof.
  unfold annotationOverlay.
  rewrite (omap_sources _ (λ i, hasBox i && overlayKeeps p st i));
    [| apply overlayMarker_source | apply overlayMarker_keeps].
  rewrite filter_andb. apply filter_ext. intros x.
  destruct (hasBox x); reflexivity.
Qed.

Lemma html_sources (p : Props) :
  source <$> htmlAnnotations p = List.filter hasBox (issues p).
Proof.
  unfold htmlAnnotations.
  assert (source <$> omap (htmlMarker p) (List.filter hasBox (issues p))
          = List.filter hasBox (issues p)) as H.
  { rewrite (omap_sources _ hasBox);
      [| apply htmlMarker_source | apply htmlMarker_keeps].
    rewrite filter_andb. apply filter_ext. intros x.
    destruct (hasBox x); reflexivity. }
  destruct (0 <? length (List.filter hasBox (issues p)))%nat eqn:L;
    [exact H|].
  apply Nat.ltb_ge in L.
  destruct (List.filter hasBox (issues p)); [reflexivity | simpl in L; lia].
Qed.

(** X3: in a carousel an issue is drawn on at most one page: two layers that
    both hold a marker of the same issue are the same layer. *)
Theorem carousel_issue_on_one_page (p : Props) (st : State)
    (pages : list (list Marker)) (i j : nat) (li lj : list Marker)
    (issue : Issue.t) :
  carouselPages (render p st) = Some pages →
  pages !! i = Some li → pages !! j = Some lj →
  markerOn li issue → markerOn lj issue →
  i = j.
Proof.
  intros Hpages Hi Hj.
  rewrite (carousel_layer p st pages i li Hpages Hi).
  rewrite (carousel_layer p st pages j lj Hpages Hj).
  unfold pdfAnnotationLayer.
  rewrite !markerOn_omap by apply pdfPageMarker_source.
  rewrite !pdfPageMarker_is_Some, !isPageMatch_spec.
  intros (_ & _ & Mi) (_ & _ & Mj).
  destruct Mi as [Ei|[Ei ->]], Mj as [Ej|[Ej ->]]; try reflexivity.
  - rewrite Ei in Ej. injection Ej. lia.
  - rewrite Ei in Ej. destruct Ej as [[=]|[= E0]]. lia.
  - rewrite Ej in Ei. destruct Ei as [[=]|[= E0]]. lia.
Qed.

Lemma carousel_issue_on_one_page_witness : 0%nat = 0%nat.
Proof.
  apply (carousel_issue_on_one_page
           (Sample.pdf [Sample.pageZero; Sample.b] None) (Sample.pages 2)
           [ [ {| key := "z"; left := 25; top := 35; badge := 1;
                  selected := false; tooltip := false;
                  source := Sample.pageZero |} ];
             [ {| key := "b"; left := 52.5; top := 52.5; badge := 2;
                  selected := false; tooltip := false; source := Sample.b |} ] ]
           0%nat 0%nat
           [ {| key := "z"; left := 25; top := 35; badge := 1;
                selected := false; tooltip := false;
                source := Sample.pageZero |} ]
           [ {| key := "z"; left := 25; top := 35; badge := 1;
                selected := false; tooltip := false;
                source := Sample.pageZero |} ]
           Sample.pageZero).
  - vm_compute. reflexivity.
  - reflexivity.
  - reflexivity.
  - eexists. split; [apply list_elem_of_here | reflexivity].
  - eexists. split; [apply list_elem_of_here | reflexivity].
Defined.

(** X4: the markers of a carousel page stand, in the order of the issue
    list and once per list entry, for exactly the issues that have a bounding
    box and match the page. *)
Theorem carousel_layer_in_list_order (p : Props) (st : State)
    (pages : list (list Marker)) (index : nat) (layer : list Marker) :
  carouselPages (render p st) = Some pages →
  pages !! index = Some layer →
  source <$> layer
  = List.filter (λ i, hasBox i && isPageMatch i index) (issues p).
Proof.
  intros Hpages Hlayer.
  rewrite (carousel_layer p st pages index layer Hpages Hlayer).
  apply layer_sources.
Qed.

Lemma carousel_layer_in_list_order_witness :
  source <$> [ {| key := "b"; left := 52.5; top := 52.5; badge := 2;
                  selected := false; tooltip := false; source := Sample.b |} ]
  = List.filter (λ i, hasBox i && isPageMatch i 1)
      [Sample.a; Sample.b; Sample.c].
Proof.
  apply (carousel_layer_in_list_order
           (Sample.pdf [Sample.a; Sample.b; Sample.c] None) (Sample.pages 2)
           [ [ {| key := "a"; left := 12.5; top := 12.5; badge := 1;
                  selected := false; tooltip := false; source := Sample.a |} ];
             [ {| key := "b"; left := 52.5; top := 52.5; badge := 2;
                  selected := false; tooltip := false; source := Sample.b |} ] ]
           1%nat).
  - vm_compute. reflexivity.
  - reflexivity.
Defined.

(** X5: the zoomable overlay of an image or a video shows, in the order of
    the issue list and once per list entry, exactly the boxed issues it
    keeps: all of them on an image, the selected ones and those inside the
    window on a video. *)
Theorem overlay_in_list_order (p : Props) (st : State) :
  isDoc p = false →
  source <$> placedMarkers (render p st)
  = List.filter (λ i, hasBox i && overlayKeeps p st i) (issues p)
  ∧ (isVideo p = false →
     source <$> placedMarkers (render p st) = List.filter hasBox (issues p)).
Proof.
  intros Hdoc.
  assert (placedMarkers (render p st) = annotationOverlay p st) as ->.
  { unfold render. rewrite Hdoc. destruct (isVideo p); reflexivity. }
  split; [apply overlay_sources|].
  intros Hvid. rewrite overlay_sources. apply filter_ext. intros x.
  unfold overlayKeeps. rewrite Hvid. simpl. apply andb_true_r.
Qed.

Lemma overlay_in_list_order_witness :
  source <$> placedMarkers
               (render (Sample.video [Sample.later; Sample.c; Sample.atStart] None)
                       (Sample.playing 1 60))
  = List.filter
      (λ i, hasBox i
            && overlayKeeps
                 (Sample.video [Sample.later; Sample.c; Sample.atStart] None)
                 (Sample.playing 1 60) i)
      [Sample.later; Sample.c; Sample.atStart]
  ∧ (isVideo (Sample.video [Sample.later; Sample.c; Sample.atStart] None)
     = false →
     source <$> placedMarkers
                  (render (Sample.video [Sample.later; Sample.c; Sample.atStart]
                                        None)
                          (Sample.playing 1 60))
     = List.filter hasBox [Sample.later; Sample.c; Sample.atStart]).
Proof.
  apply (overlay_in_list_order
           (Sample.video [Sample.later; Sample.c; Sample.atStart] None)
           (Sample.playing 1 60)).
  reflexivity.
Defined.

(** X6: an HTML document shows a marker for every boxed issue, in list order,
    whatever the page numbers and timestamps; the notice that visual
    annotations are unavailable is shown exactly when the list is not empty
    and no issue has a bounding box, and then no marker is shown. *)
Theorem html_document_annotations (p : Props) (st : State) (notice : bool)
    (annotations : list Marker) :
  render p st = HtmlDocument notice annotations →
  source <$> annotations = List.filter hasBox (issues p)
  ∧ (notice = true ↔ issues p ≠ [] ∧ List.filter hasBox (issues p) = [])
  ∧ (notice = true → annotations = []).
Proof.
  unfold render.
  destruct (isDoc p); [destruct (useCarousel p); [destruct (isPDF p)|]|];
    try discriminate.
  2: { destruct (isVideo p); discriminate. }
  destruct (htmlContent p) as [h|]; [destruct (JS.truthy_string h)|];
    try discriminate.
  intros [= <- <-].
  assert (((length (List.filter hasBox (issues p)) =? 0)%nat
           && (0 <? length (issues p))%nat = true)
          ↔ issues p ≠ [] ∧ List.filter hasBox (issues p) = []) as Hnotice.
  { rewrite andb_true_iff, Nat.eqb_eq, Nat.ltb_lt.
    split; intros [H1 H2].
    - split; [intros E; rewrite E in H2; simpl in H2; lia|].
      destruct (List.filter hasBox (issues p)); [reflexivity | discriminate].
    - rewrite H2. split; [reflexivity|].
      destruct (issues p); [contradiction | simpl; lia]. }
  split; [apply html_sources|]. split; [exact Hnotice|].
  intros [_ E]%Hnotice. unfold htmlAnnotations. rewrite E. reflexivity.
Qed.

Lemma html_document_annotations_witness :
  source <$> ([] : list Marker) = List.filter hasBox [Sample.c]
  ∧ (true = true ↔ [Sample.c] ≠ [] ∧ List.filter hasBox [Sample.c] = [])
  ∧ (true = true → ([] : list Marker) = []).
Proof.
  apply (html_document_annotations
           {| assetType := DOCUMENT; src := "memo.docx"; issues := [Sample.c];
              selectedIssueId := None; htmlContent := Some "<p>Memo</p>";
              mimeType := None; visualSlides := None |}
           (Sample.pages 0) true []).
  vm_compute. reflexivity.
Defined.

(** ** How many markers *)

Lemma carousel_pages_seq (p : Props) (st : State) (pages : list (list Marker)) :
  carouselPages (render p st) = Some pages →
  pages = pdfAnnotationLayer p st <$> seq 0 (length pages).
Proof.
  intros Hpages. apply list_eq. intros i. rewrite list_lookup_fmap.
  destruct (pages !! i) as [layer|] eqn:E.
  - rewrite (lookup_seq_lt 0 (length pages) i) by (eapply lookup_lt_Some; eauto).
    simpl. f_equal. eapply carousel_layer; eauto.
  - rewrite (lookup_seq_ge 0 (length pages) i); [reflexivity|].
    apply lookup_ge_None. exact E.
Qed.

Lemma length_concat_fmap {A B : Type} (g : A → list B) (idxs : list A) :
  length (concat (g <$> idxs)) = sum_list_with (λ i, length (g i)) idxs.
Proof.
  induction idxs as [|i idxs IH]; [reflexivity|]. cbn.
  rewrite length_app, IH. reflexivity.
Qed.

Section Counting.

Variable f : nat → Issue.t → option Marker.
Hypothesis f_box : ∀ i x, is_Some (f i x) → hasBox x = true.
Hypothesis f_one : ∀ i j x, is_Some (f i x) → is_Some (f j x) → i = j.

Lemma sum_nil (idxs : list nat) :
  sum_list_with (λ i, length (omap (f i) [])) idxs = 0%nat.
Proof. induction idxs as [|i idxs IH]; [reflexivity | exact IH]. Qed.

Lemma sum_cons (x : Issue.t) (l : list Issue.t) (idxs : list nat) :
  sum_list_with (λ i, length (omap (f i) (x :: l))) idxs
  = (sum_list_with (λ i, match f i x with Some _ => 1%nat | None => 0%nat end) idxs
     + sum_list_with (λ i, length (omap (f i) l)) idxs)%nat.
Proof.
  induction idxs as [|i idxs IH]; [reflexivity|]. cbn. cbn in IH.
  rewrite IH. destruct (f i x); cbn; lia.
Qed.

Lemma sum_none (x : Issue.t) (idxs : list nat) :
  (∀ i, i ∈ idxs → f i x = None) →
  sum_list_with (λ i, match f i x with Some _ => 1%nat | None => 0%nat end) idxs = 0%nat.
Proof.
  induction idxs as [|i idxs IH]; intros H; [reflexivity|]. cbn.
  rewrite (H i) by apply list_elem_of_here.
  apply IH. intros j Hj. apply H. apply list_elem_of_further, Hj.
Qed.

Lemma sum_at_most_one (x : Issue.t) (idxs : list nat) :
  NoDup idxs →
  (sum_list_with (λ i, match f i x with Some _ => 1%nat | None => 0%nat end) idxs
   ≤ (if hasBox x then 1 else 0))%nat.
Proof.
  induction 1 as [|i idxs Hnotin Hnd IH]; [cbn; lia|]. cbn.
  destruct (f i x) as [m|] eqn:E; [|exact IH].
  rewrite (f_box i x) by (rewrite E; eauto).
  rewrite sum_none; [lia|].
  intros j Hj. destruct (f j x) as [m'|] eqn:E'; [|reflexivity].
  assert (i = j) as -> by (apply (f_one i j x); [rewrite E | rewrite E']; eauto).
  contradiction.
Qed.

Lemma sum_bounded (l : list Issue.t) (idxs : list nat) :
  NoDup idxs →
  (sum_list_with (λ i, length (omap (f i) l)) idxs
   ≤ length (List.filter hasBox l))%nat.
Proof.
  intros Hnd. induction l as [|x l IH].
  - rewrite sum_nil. simpl. lia.
  - rewrite sum_cons. pose proof (sum_at_most_one x idxs Hnd) as Hx.
    simpl. destruct (hasBox x); simpl; lia.
Qed.

End Counting.

Lemma length_filter_andb {A : Type} (f g : A → bool) (l : list A) :
  (length (List.filter (λ x, f x && g x) l) ≤ length (List.filter f l))%nat.
Proof.
  induction l as [|x l IH]; [reflexivity|]. simpl.
  destruct (f x), (g x); simpl; lia.
Qed.

Lemma pdfPageMarker_one_page (p : Props) (st : State) (i j : nat)
    (x : Issue.t) :
  is_Some (pdfPageMarker p st i x) → is_Some (pdfPageMarker p st j x) → i = j.
Proof.
  rewrite !pdfPageMarker_is_Some, !isPageMatch_spec.
  intros (_ & Mi) (_ & Mj).
  destruct Mi as [Ei|[Ei ->]], Mj as [Ej|[Ej ->]]; try reflexivity.
  - rewrite Ei in Ej. injection Ej. lia.
  - rewrite Ei in Ej. destruct Ej as [[=]|[= E0]]. lia.
  - rewrite Ej in Ei. destruct Ei as [[=]|[= E0]]. lia.
Qed.

(** X7: whatever is rendered, there are never more markers than issues with
    a bounding box in the list: the carousel repeats no issue across pages,
    and the other branches draw each boxed issue at most once. *)
Theorem markers_at_most_boxed_issues (p : Props) (st : State) :
  (length (placedMarkers (render p st))
   ≤ length (List.filter hasBox (issues p)))%nat.
Proof.
  destruct (carouselPages (render p st)) as [pages|] eqn:Hpages.
  - assert (placedMarkers (render p st) = concat pages) as ->.
    { destruct (render p st); try discriminate; injection Hpages as ->;
        reflexivity. }
    rewrite (carousel_pages_seq p st pages Hpages) at 1.
    rewrite length_concat_fmap. unfold pdfAnnotationLayer.
    apply (sum_bounded (pdfPageMarker p st)).
    + intros i x H. apply pdfPageMarker_keeps in H.
      apply andb_true_iff in H as [H _]. exact H.
    + apply pdfPageMarker_one_page.
    + apply NoDup_seq.
  - revert Hpages. unfold render.
    destruct (isDoc p) eqn:Hdoc;
      [destruct (useCarousel p); [destruct (isPDF p); discriminate|]|].
    + intros _.
      destruct (htmlContent p) as [h|]; [destruct (JS.truthy_string h)|];
        simpl; try lia.
      rewrite <- (length_fmap source), html_sources. reflexivity.
    + intros _.
      assert (placedMarkers (if isVideo p
                then VideoPlayer (currentTime st / JS.or (duration st) 1 * 100)%float
                       (timelineMarkers p st) (negb (isPlaying st))
                       (annotationOverlay p st)
                else ImageViewer (annotationOverlay p st))
              = annotationOverlay p st) as ->
        by (destruct (isVideo p); reflexivity).
      rewrite <- (length_fmap source), overlay_sources.
      apply length_filter_andb.
Qed.

(** ** What playback and hover cannot change *)

Lemma fmap_concat {A B : Type} (g : A → B) (ls : list (list A)) :
  g <$> concat ls = concat ((λ l : list A, g <$> l) <$> ls).
Proof.
  induction ls as [|l ls IH]; [reflexivity|]. cbn.
  rewrite fmap_app, IH. reflexivity.
Qed.

Lemma imap_index_seq {A B : Type} (g : nat → B) (l : list A) :
  imap (λ index _, g index) l = g <$> seq 0 (length l).
Proof.
  apply list_eq. intros i. rewrite list_lookup_imap, list_lookup_fmap.
  destruct (l !! i) as [a|] eqn:E; simpl.
  - rewrite (lookup_seq_lt 0 (length l) i) by (eapply lookup_lt_Some; eauto).
    reflexivity.
  - rewrite (lookup_seq_ge 0 (length l) i); [reflexivity|].
    apply lookup_ge_None. exact E.
Qed.

Lemma pdfPageMarker_placement_state (p : Props) (st st' : State)
    (sel : option string) (index : nat) (issue : Issue.t) :
  placement <$> pdfPageMarker (withSelection sel p) st' index issue
  = placement <$> pdfPageMarker p st index issue.
Proof.
  unfold pdfPageMarker.
  destruct (negb _); [reflexivity|].
  destruct (Issue.boundingBox issue); reflexivity.
Qed.

Lemma htmlMarker_placement (p : Props) (sel : option string) (issue : Issue.t) :
  placement <$> htmlMarker (withSelection sel p) issue
  = placement <$> htmlMarker p issue.
Proof. unfold htmlMarker. destruct (Issue.boundingBox issue); reflexivity. Qed.

Lemma overlayMarker_placement_image (p : Props) (st st' : State)
    (sel : option string) (issue : Issue.t) :
  isVideo p = false →
  placement <$> overlayMarker (withSelection sel p) st' issue
  = placement <$> overlayMarker p st issue.
Proof.
  intros Hvid. unfold overlayMarker.
  change (isVideo (withSelection sel p)) with (isVideo p). rewrite Hvid. simpl.
  destruct (Issue.boundingBox issue); reflexivity.
Qed.

Lemma layers_placement (p : Props) (st st' : State) (sel : option string)
    (idxs : list nat) :
  (λ layer : list Marker, placement <$> layer)
    <$> (pdfAnnotationLayer (withSelection sel p) st' <$> idxs)
  = (λ layer : list Marker, placement <$> layer)
      <$> (pdfAnnotationLayer p st <$> idxs).
Proof.
  induction idxs as [|i idxs IH]; [reflexivity|]. cbn. f_equal; [|exact IH].
  unfold pdfAnnotationLayer. apply omap_placement. intros x.
  apply pdfPageMarker_placement_state.
Qed.

(** X8: unless the video player is shown, neither the playback position, the
    duration, the play state, the hovered marker nor the selection changes
    which markers are placed, where, on which page and with which badge; of
    the state only the PDF page count matters. *)
Theorem placements_ignore_playback_and_hover (p : Props) (st st' : State)
    (sel : option string) :
  isDoc p = true ∨ isVideo p = false →
  numPages st' = numPages st →
  placement <$> placedMarkers (render (withSelection sel p) st')
  = placement <$> placedMarkers (render p st)
  ∧ carouselPlacements (render (withSelection sel p) st')
    = carouselPlacements (render p st).
Proof.
  intros Hmode Hnum. unfold carouselPlacements, render.
  change (isDoc (withSelection sel p)) with (isDoc p).
  change (useCarousel (withSelection sel p)) with (useCarousel p).
  change (isPDF (withSelection sel p)) with (isPDF p).
  change (isVideo (withSelection sel p)) with (isVideo p).
  change (htmlContent (withSelection sel p)) with (htmlContent p).
  change (visualSlides (withSelection sel p)) with (visualSlides p).
  change (issues (withSelection sel p)) with (issues p).
  destruct (isDoc p) eqn:Hdoc;
    [destruct (useCarousel p); [destruct (isPDF p)|]|].
  - cbn [placedMarkers carouselPages]. rewrite Hnum, !fmap_concat.
    rewrite (layers_placement p st st' sel). split; reflexivity.
  - cbn [placedMarkers carouselPages].
    destruct (visualSlides p) as [slides|]; [|split; reflexivity].
    rewrite !imap_index_seq, !fmap_concat.
    rewrite (layers_placement p st st' sel). split; reflexivity.
  - destruct (htmlContent p) as [h|]; [destruct (JS.truthy_string h)|];
      (split; [|reflexivity]); try reflexivity.
    cbn [placedMarkers]. unfold htmlAnnotations.
    change (issues (withSelection sel p)) with (issues p).
    destruct (0 <? _)%nat; [|reflexivity].
    apply omap_placement. intros x. apply htmlMarker_placement.
  - destruct Hmode as [[=]|Hvid]. rewrite Hvid. split; [|reflexivity].
    cbn [placedMarkers]. unfold annotationOverlay.
    change (issues (withSelection sel p)) with (issues p).
    apply omap_placement. intros x.
    apply overlayMarker_placement_image, Hvid.
Qed.

Lemma placements_ignore_playback_and_hover_witness :
  placement <$> placedMarkers
                  (render (withSelection (Some "x")
                             (Sample.image [Sample.offCanvas; Sample.later] None))
                          (Sample.playing 30 60))
  = placement <$> placedMarkers
                    (render (Sample.image [Sample.offCanvas; Sample.later] None)
                            (Sample.pages 0))
  ∧ carouselPlacements
      (render (withSelection (Some "x")
                 (Sample.image [Sample.offCanvas; Sample.later] None))
              (Sample.playing 30 60))
    = carouselPlacements
        (render (Sample.image [Sample.offCanvas; Sample.later] None)
                (Sample.pages 0)).
Proof.
  apply (placements_ignore_playback_and_hover
           (Sample.image [Sample.offCanvas; Sample.later] None)
           (Sample.pages 0) (Sample.playing 30 60) (Some "x")).
  - right. reflexivity.
  - reflexivity.
Defined.

(** ** Render mode *)

Lemma isPDF_mime (p : Props) :
  isPDF p = true ↔ mimeType p = Some "application/pdf".
Proof.
  unfold isPDF. destruct (mimeType p) as [m|].
  - rewrite String.eqb_eq. split; congruence.
  - split; discriminate.
Qed.

(** X9: the PDF carousel is rendered exactly when the MIME type is
    [application/pdf], whatever the asset type, the HTML content and the
    slides; it then has one layer per loaded page and the video player with
    its seek bar is not rendered, even for an asset of type VIDEO. *)
Theorem pdf_mime_type_wins (p : Props) (st : State) :
  ((∃ pages, render p st = PdfCarousel pages)
   ↔ mimeType p = Some "application/pdf")
  ∧ (mimeType p = Some "application/pdf" →
     render p st = PdfCarousel (pdfAnnotationLayer p st <$> seq 0 (numPages st))
     ∧ length (pdfAnnotationLayer p st <$> seq 0 (numPages st)) = numPages st
     ∧ timeline (render p st) = []).
Proof.
  rewrite <- isPDF_mime.
  assert (isPDF p = true →
          render p st
          = PdfCarousel (pdfAnnotationLayer p st <$> seq 0 (numPages st)))
    as Hpdf.
  { intros H. unfold render, isDoc, useCarousel. rewrite H.
    rewrite !orb_true_r. reflexivity. }
  split; [split|].
  - intros [pages Hr]. revert Hr. unfold render.
    destruct (isPDF p); [reflexivity|].
    destruct (isDoc p); [destruct (useCarousel p)|]; try discriminate.
    + destruct (htmlContent p) as [h|]; [destruct (JS.truthy_string h)|];
        discriminate.
    + destruct (isVideo p); discriminate.
  - intros H. eexists. apply Hpdf, H.
  - intros H. rewrite (Hpdf H). repeat split.
    rewrite length_fmap, length_seq. reflexivity.
Qed.

Lemma pdf_mime_type_wins_witness :
  render {| assetType := VIDEO; src := "clip.pdf"; issues := [Sample.later];
            selectedIssueId := None; htmlContent := Some "<p>x</p>";
            mimeType := Some "application/pdf"; visualSlides := None |}
         (Sample.pages 2)
  = PdfCarousel
      (pdfAnnotationLayer
         {| assetType := VIDEO; src := "clip.pdf"; issues := [Sample.later];
            selectedIssueId := None; htmlContent := Some "<p>x</p>";
            mimeType := Some "application/pdf"; visualSlides := None |}
         (Sample.pages 2) <$> seq 0 2)
  ∧ length (pdfAnnotationLayer
              {| assetType := VIDEO; src := "clip.pdf";
                 issues := [Sample.later];
                 selectedIssueId := None; htmlContent := Some "<p>x</p>";
                 mimeType := Some "application/pdf"; visualSlides := None |}
              (Sample.pages 2) <$> seq 0 2) = 2%nat
  ∧ timeline
      (render {| assetType := VIDEO; src := "clip.pdf";
                 issues := [Sample.later];
                 selectedIssueId := None; htmlContent := Some "<p>x</p>";
                 mimeType := Some "application/pdf"; visualSlides := None |}
              (Sample.pages 2)) = [].
Proof.
  apply (proj2 (pdf_mime_type_wins
                  {| assetType := VIDEO; src := "clip.pdf";
                     issues := [Sample.later];
                     selectedIssueId := None; htmlContent := Some "<p>x</p>";
                     mimeType := Some "application/pdf";
                     visualSlides := None |}
                  (Sample.pages 2))).
  reflexivity.
Defined.

(** ** Selection, refs and the seek bar *)




(** X11: committing a render never unregisters a page wrapper and makes no
    call: a page that was registered stays registered, also after the
    document is replaced by a shorter one or by an image. *)
Theorem commitRefs_keeps_pages (p : Props) (st : State) (w : World) (q : Z)
    (pageEl : HTMLDivElement) :
  pageRefs w !! q = Some pageEl →
  is_Some (pageRefs (commitRefs p st w) !! q)
  ∧ calls (commitRefs p st w) = calls w.
Proof.
  intros Hq. unfold commitRefs.
  destruct (render p st); simpl; (split; [|reflexivity]); eauto;
    rewrite attachPages_lookup; destruct (decide _); eauto.
Qed.

Lemma commitRefs_keeps_pages_witness :
  is_Some (pageRefs
             (commitRefs (Sample.image [] None) (Sample.pages 0)
                (commitRefs (Sample.pdf [] None) (Sample.pages 3)
                            Sample.emptyWorld)) !! 3)
  ∧ calls (commitRefs (Sample.image [] None) (Sample.pages 0)
             (commitRefs (Sample.pdf [] None) (Sample.pages 3)
                         Sample.emptyWorld))
    = calls (commitRefs (Sample.pdf [] None) (Sample.pages 3)
                        Sample.emptyWorld).
Proof.
  apply (commitRefs_keeps_pages (Sample.image [] None) (Sample.pages 0)
           (commitRefs (Sample.pdf [] None) (Sample.pages 3) Sample.emptyWorld)
           3 (PageWrapper 2)).
  vm_compute. reflexivity.
Defined.

Lemma find_none_of_ids (l : list Issue.t) (sid : string) :
  (∀ i, i ∈ l → Issue.id i ≠ sid) →
  List.find (λ i, String.eqb (Issue.id i) sid) l = None.
Proof.
  induction l as [|x l IH]; intros H; [reflexivity|]. simpl.
  destruct (String.eqb_spec (Issue.id x) sid) as [E|_].
  - destruct (H x (list_elem_of_here _ _) E).
  - apply IH. intros i Hi. apply H, list_elem_of_further, Hi.
Qed.

(** X12: the selection effect leaves the DOM alone when there is nothing to
    reveal: no selection, an empty id, an id that no issue of the list
    carries, or an asset that is neither a video nor a carousel. *)
Theorem onSelectionChange_noop (p : Props) (w : World) :
  (selectedIssueId p = None ∨ selectedIssueId p = Some ""
   ∨ (∃ sid, selectedIssueId p = Some sid
             ∧ ∀ i, i ∈ issues p → Issue.id i ≠ sid)
   ∨ (isVideo p = false ∧ useCarousel p = false)) →
  onSelectionChange p w = w.
Proof.
  unfold onSelectionChange.
  intros [-> | [-> | [(sid & -> & Hids) | [-> ->]]]]; try reflexivity.
  - rewrite (find_none_of_ids _ _ Hids).
    destruct (JS.truthy_string sid); reflexivity.
  - destruct (selectedIssueId p) as [sid|]; [|reflexivity].
    destruct (JS.truthy_string sid); [|reflexivity].
    destruct (List.find _ _); reflexivity.
Qed.

Lemma onSelectionChange_noop_witness :
  onSelectionChange (Sample.pdf [Sample.a; Sample.b] (Some "ghost"))
    (commitRefs (Sample.pdf [Sample.a; Sample.b] (Some "ghost"))
                (Sample.pages 2) Sample.emptyWorld)
  = commitRefs (Sample.pdf [Sample.a; Sample.b] (Some "ghost"))
               (Sample.pages 2) Sample.emptyWorld.
Proof.
  apply (onSelectionChange_noop (Sample.pdf [Sample.a; Sample.b] (Some "ghost"))).
  right. right. left. exists "ghost". split; [reflexivity|].
  intros i Hi.
  apply elem_of_cons in Hi as [-> | Hi]; [discriminate|].
  apply elem_of_cons in Hi as [-> | Hi]; [discriminate|].
  apply elem_of_nil in Hi. destruct Hi.
Defined.



(** X14: the seek bar exists only on the video player, where its ticks
    stand, in list order and once per list entry, for exactly the issues with
    a timestamp, whether boxed, selected, or near the playback position or
    not. *)
Theorem timeline_in_list_order (p : Props) (st : State) :
  (isDoc p = false → isVideo p = true →
   tick_source <$> timeline (render p st)
   = List.filter hasTimestamp (issues p))
  ∧ (isDoc p = true ∨ isVideo p = false → timeline (render p st) = []).
Proof.
  split.
  - intros Hdoc Hvid. rewrite (render_video p st Hdoc Hvid). simpl.
    unfold timelineMarkers.
    induction (issues p) as [|x l IH]; [reflexivity|]. simpl.
    destruct (hasTimestamp x) eqn:H; [|exact IH]. cbn.
    destruct (timelineMarker st x) as [t|] eqn:E; unfold timelineMarker in E;
      unfold hasTimestamp in H; destruct (Issue.timestamp x);
      try discriminate.
    injection E as <-. cbn. f_equal. exact IH.
  - intros Hmode. unfold render.
    destruct (isDoc p); [destruct (useCarousel p); [destruct (isPDF p)|]|];
      try reflexivity.
    + destruct (htmlContent p) as [h|]; [destruct (JS.truthy_string h)|];
        reflexivity.
    + destruct Hmode as [[=] | ->]. reflexivity.
Qed.

Lemma timeline_in_list_order_witness :
  tick_source <$> timeline
                    (render (Sample.video [Sample.a; Sample.c; Sample.atStart]
                                          (Some "a"))
                            (Sample.playing 50 60))
  = List.filter hasTimestamp [Sample.a; Sample.c; Sample.atStart]
  ∧ timeline (render (Sample.image [Sample.c] None) (Sample.playing 50 60))
    = [].
Proof.
  split.
  - apply (proj1 (timeline_in_list_order
                    (Sample.video [Sample.a; Sample.c; Sample.atStart]
                                  (Some "a"))
                    (Sample.playing 50 60))); reflexivity.
  - apply (proj2 (timeline_in_list_order (Sample.image [Sample.c] None)
                    (Sample.playing 50 60))).
    right. reflexivity.
Defined.

(** * The other components: properties *)

(** ** Key figures *)

(** For every window the dashboard can select, at most 180 items, the float
    computation of the pass rate is the exact rounding of the percentage,
    except at 57.5 percent: [23 / 40 * 100] is [57.49999999999999]. *)
Lemma passRate_float (total safe : nat) :
  (1 ≤ total ≤ 180)%nat → (safe ≤ total)%nat →
  Math.round (Dashboard.ofNat safe / Dashboard.ofNat total * 100)%float
  = Dashboard.ofNat (if (40 * safe =? 23 * total)%nat then 57
                     else (200 * safe + total) / (2 * total))%nat
  ∧ (Math.round (Dashboard.ofNat safe / Dashboard.ofNat total * 100) <? 50)%float
    = (200 * safe <? 99 * total)%nat.
Proof.
  intros Ht Hs.
  assert (forallb
            (λ total,
               forallb
                 (λ safe,
                    let t := Z.of_nat total in
                    let s := Z.of_nat safe in
                    let r := Math.round (Math.ofZ s / Math.ofZ t * 100)%float in
                    PrimFloat.Leibniz.eqb r
                      (Math.ofZ (if 40 * s =? 23 * t then 57
                                 else (200 * s + t) / (2 * t)))
                    && Bool.eqb (r <? 50)%float (200 * s <? 99 * t))
                 (List.seq 0 (S total)))
            (List.seq 1 180) = true) as H by (vm_compute; reflexivity).
  rewrite forallb_forall in H.
  specialize (H total (proj2 (in_seq 180 1 total) ltac:(lia))).
  rewrite forallb_forall in H.
  specialize (H safe (proj2 (in_seq (S total) 0 safe) ltac:(lia))).
  cbv zeta in H. apply andb_true_iff in H as [H1 H2].
  apply FloatAxioms.Leibniz.eqb_spec in H1. apply Bool.eqb_prop in H2.
  unfold Dashboard.ofNat.
  assert ((40 * safe =? 23 * total)%nat
          = (40 * Z.of_nat safe =? 23 * Z.of_nat total)) as ->.
  { destruct (Nat.eqb_spec (40 * safe) (23 * total)),
             (Z.eqb_spec (40 * Z.of_nat safe) (23 * Z.of_nat total));
      (reflexivity || lia). }
  assert ((200 * safe <? 99 * total)%nat
          = (200 * Z.of_nat safe <? 99 * Z.of_nat total)) as ->.
  { destruct (Nat.ltb_spec (200 * safe) (99 * total)),
             (Z.ltb_spec (200 * Z.of_nat safe) (99 * Z.of_nat total));
      (reflexivity || lia). }
  split; [|exact H2]. rewrite H1.
  destruct (40 * Z.of_nat safe =? 23 * Z.of_nat total); [reflexivity|].
  f_equal. rewrite Nat2Z.inj_div. f_equal; lia.
Qed.

Lemma timeSaved_float (total : nat) :
  (total ≤ 180)%nat →
  Math.round (Dashboard.ofNat total * 0.75)%float
  = Dashboard.ofNat ((3 * total + 2) / 4)%nat.
Proof.
  intros Ht.
  assert (forallb
            (λ total,
               let t := Z.of_nat total in
               PrimFloat.Leibniz.eqb
                 (Math.round (Math.ofZ t * 0.75)%float)
                 (Math.ofZ ((3 * t + 2) / 4)))
            (List.seq 0 181) = true) as H by (vm_compute; reflexivity).
  rewrite forallb_forall in H.
  specialize (H total (proj2 (in_seq 181 0 total) ltac:(lia))).
  cbv zeta in H. apply FloatAxioms.Leibniz.eqb_spec in H.
  unfold Dashboard.ofNat. rewrite H. f_equal.
  rewrite Nat2Z.inj_div. f_equal; lia.
Qed.

Lemma rawData_length (history : list Dashboard.HistoryItem)
    (timeRange : Dashboard.TimeRange) :
  (length (Dashboard.rawData history timeRange) ≤ 180)%nat.
Proof.
  unfold Dashboard.rawData. rewrite length_take.
  assert (Dashboard.limit timeRange * 2 ≤ 180)%nat
    by (destruct timeRange; simpl; lia).
  lia.
Qed.

Lemma length_filter_disjoint {A : Type} (f g : A → bool) (l : list A) :
  (∀ x, f x = true → g x = false) →
  (length (List.filter f l) + length (List.filter g l) ≤ length l)%nat.
Proof.
  intros Hfg. induction l as [|x l IH]; [reflexivity|]. simpl.
  destruct (f x) eqn:F; [rewrite (Hfg x F)|destruct (g x)]; simpl; lia.
Qed.

Lemma length_filter_le {A : Type} (f : A → bool) (l : list A) :
  (length (List.filter f l) ≤ length l)%nat.
Proof.
  induction l as [|x l IH]; [reflexivity|]. simpl.
  destruct (f x); simpl; lia.
Qed.

(** X15: over the window the dashboard looks at (the first 14, 60 or 180
    items of the history), the figures computed in floating point are exact
    integers: the pass rate is the percentage of safe items rounded half up,
    except that 57.5 percent gives 57; the time saved is three quarters of
    the item count rounded half up; the item count is the window length and
    blockers and safe items together never exceed it.  An empty window gives
    zero everywhere. *)
Theorem kpis_exact (history : list Dashboard.HistoryItem)
    (timeRange : Dashboard.TimeRange) :
  let raw := Dashboard.rawData history timeRange in
  let total := length raw in
  let safe := length (List.filter Dashboard.isSafe raw) in
  (total ≤ 2 * Dashboard.limit timeRange)%nat
  ∧ Dashboard.totalAnalyzed (Dashboard.kpis raw) = total
  ∧ (Dashboard.blockers (Dashboard.kpis raw) + safe ≤ total)%nat
  ∧ Dashboard.passRate (Dashboard.kpis raw)
    = Dashboard.ofNat (if (total =? 0)%nat then 0
                       else if (40 * safe =? 23 * total)%nat then 57
                       else (200 * safe + total) / (2 * total))%nat
  ∧ Dashboard.timeSaved (Dashboard.kpis raw)
    = Dashboard.ofNat ((3 * total + 2) / 4)%nat.
Proof.
  intros raw total safe.
  pose proof (rawData_length history timeRange) as Hlen.
  fold raw in Hlen. fold total in Hlen.
  assert (safe ≤ total)%nat as Hsafe by apply length_filter_le.
  split.
  { unfold total, raw, Dashboard.rawData. rewrite length_take. lia. }
  unfold Dashboard.kpis. fold total. fold safe.
  destruct (Nat.eqb_spec total 0) as [E|E];
    cbn [Dashboard.totalAnalyzed Dashboard.blockers Dashboard.passRate
         Dashboard.timeSaved].
  - rewrite E. repeat split; try lia; vm_compute; reflexivity.
  - repeat split.
    + rewrite Nat.add_comm. apply length_filter_disjoint.
      intros x. unfold Dashboard.isSafe, Dashboard.isUnsafe.
      intros ->%String.eqb_eq. reflexivity.
    + apply passRate_float; lia.
    + apply timeSaved_float; lia.
Qed.

(** At 23 safe items out of 40 the dashboard shows 57 percent. *)
Example pass_rate_of_23_in_40 :
  Dashboard.passRate
    (Dashboard.kpis
       (Dashboard.rawData
          (replicate 23 (Dashboard.mkItem "a.pdf" "2025-01-01" None "Safe" None)
           ++ replicate 17
                (Dashboard.mkItem "b.pdf" "2025-01-01" None "Unsafe" None))
          Dashboard.Days30))
  = 57%float.
Proof. vm_compute. reflexivity. Qed.

(** X16: the insight card says "Immediate Action Required" exactly when the
    window is empty or fewer than 49.5 percent of its items are safe, whatever
    the asset-type chart holds; it says "System Healthy" only when neither
    that holds nor the worst asset type is below 60. *)
Theorem insight_thresholds (history : list Dashboard.HistoryItem)
    (timeRange : Dashboard.TimeRange)
    (worstAssetType : option Dashboard.AssetTypeStat) :
  let raw := Dashboard.rawData history timeRange in
  let total := length raw in
  let safe := length (List.filter Dashboard.isSafe raw) in
  let card := Dashboard.insight (Dashboard.kpis raw) worstAssetType in
  (Dashboard.title card = "Immediate Action Required"
   ↔ total = 0%nat ∨ (200 * safe < 99 * total)%nat)
  ∧ (Dashboard.title card = "System Healthy" →
     (99 * total ≤ 200 * safe)%nat
     ∧ ∀ worst, worstAssetType = Some worst →
                (Dashboard.rate worst <? 60)%float = false).
Proof.
  intros raw total safe card.
  pose proof (rawData_length history timeRange) as Hlen.
  fold raw in Hlen. fold total in Hlen.
  assert (safe ≤ total)%nat as Hsafe by apply length_filter_le.
  assert ((Dashboard.passRate (Dashboard.kpis raw) <? 50)%float
          = (total =? 0)%nat || (200 * safe <? 99 * total)%nat) as Hrate.
  { unfold Dashboard.kpis. fold total. fold safe.
    destruct (Nat.eqb_spec total 0) as [E|E];
      cbn [orb Dashboard.passRate]; [reflexivity|].
    apply passRate_float; lia. }
  unfold card, Dashboard.insight. rewrite Hrate.
  destruct (Nat.eqb_spec total 0) as [E|E];
    destruct (Nat.ltb_spec (200 * safe) (99 * total)) as [L|L];
    cbn [orb Dashboard.title];
    try (split; [split; auto | discriminate]).
  split.
  - destruct worstAssetType as [worst|];
      [destruct (Dashboard.rate worst <? 60)%float|];
      (split; [discriminate | intros [?|?]; lia]).
  - destruct worstAssetType as [worst|];
      [destruct (Dashboard.rate worst <? 60)%float eqn:R|];
      try discriminate; intros _; (split; [exact L|]).
    + intros w [= <-]. exact R.
    + intros w [=].
Qed.

(** ** Toasts *)

Lemma removeToast_others (id : string) (l : list Toasts.Toast) :
  (∀ t, t ∈ l → Toasts.id t ≠ id) → Toasts.removeToast id l = l.
Proof.
  intros H. unfold Toasts.removeToast.
  induction l as [|t l IH]; [reflexivity|]. simpl.
  destruct (String.eqb_spec (Toasts.id t) id) as [E|_]; simpl.
  - destruct (H t (list_elem_of_here _ _) E).
  - f_equal. apply IH. intros t' Ht'. apply H, list_elem_of_further, Ht'.
Qed.

(** X17: when the id drawn for a toast is carried by no other toast on
    screen, dismissing it, by the close button or by its 5 s timer, removes
    exactly that toast: the toasts shown before it and those added after it
    stay, in their order; dismissing it again, or dismissing an id that is
    not on screen, changes nothing. *)
Theorem toast_dismissal (id message : string) (type : option Toasts.ToastType)
    (toasts later : list Toasts.Toast) :
  (∀ t, t ∈ toasts ++ later → Toasts.id t ≠ id) →
  Toasts.removeToast id (Toasts.addToast id message type toasts ++ later)
  = toasts ++ later
  ∧ Toasts.removeToast id (toasts ++ later) = toasts ++ later.
Proof.
  intros Hfresh. split; [|apply removeToast_others, Hfresh].
  unfold Toasts.addToast. rewrite <- app_assoc.
  unfold Toasts.removeToast. rewrite !List.filter_app. simpl.
  rewrite String.eqb_refl. simpl.
  fold (Toasts.removeToast id toasts). fold (Toasts.removeToast id later).
  rewrite !removeToast_others; [reflexivity | |];
    intros t Ht; apply Hfresh, elem_of_app; auto.
Qed.

Lemma toast_dismissal_witness :
  Toasts.removeToast "k3x9"
    (Toasts.addToast "k3x9" "Saved" None
       [Toasts.mkToast "a1" "Uploading" Toasts.info]
     ++ [Toasts.mkToast "b2" "Failed" Toasts.error])
  = [Toasts.mkToast "a1" "Uploading" Toasts.info]
    ++ [Toasts.mkToast "b2" "Failed" Toasts.error]
  ∧ Toasts.removeToast "k3x9"
      ([Toasts.mkToast "a1" "Uploading" Toasts.info]
       ++ [Toasts.mkToast "b2" "Failed" Toasts.error])
    = [Toasts.mkToast "a1" "Uploading" Toasts.info]
      ++ [Toasts.mkToast "b2" "Failed" Toasts.error].
Proof.
  apply (toast_dismissal "k3x9" "Saved" None
           [Toasts.mkToast "a1" "Uploading" Toasts.info]
           [Toasts.mkToast "b2" "Failed" Toasts.error]).
  intros t Ht.
  apply elem_of_cons in Ht as [-> | Ht]; [discriminate|].
  apply elem_of_cons in Ht as [-> | Ht]; [discriminate|].
  apply elem_of_nil in Ht. destruct Ht.
Defined.

(** ** Uploads *)

Ltac case_ext ext :=
  repeat match goal with
         | |- context [String.eqb ext ?s] =>
           destruct (String.eqb_spec ext s) as [->|?]
         | H : context [String.eqb ext ?s] |- _ =>
           destruct (String.eqb_spec ext s) as [->|?]
         end.

(** X18: [handleFile] never reads a presentation: a file whose extension
    makes it a PRESENTATION (ppt, pptx, key), like a gif image or an m4a
    recording, is rejected as an unsupported format, unless the browser
    reports a [text/] MIME type for it, in which case it is read as text. *)
Theorem presentations_are_not_read (ext fileType : string) :
  Upload.detectAssetType ext = PRESENTATION ∨ ext = "gif" ∨ ext = "m4a" →
  Upload.route ext fileType
  = if String.prefix "text/" fileType then Upload.ReadText
    else Upload.Unsupported.
Proof.
  intros [H | [-> | ->]].
  - revert H. unfold Upload.detectAssetType, Upload.route, Upload.includes.
    cbn [existsb]. case_ext ext; cbn; try discriminate; intros _;
      destruct (String.prefix "text/" fileType); reflexivity.
  - unfold Upload.route. cbn. destruct (String.prefix "text/" fileType);
      reflexivity.
  - unfold Upload.route. cbn. destruct (String.prefix "text/" fileType);
      reflexivity.
Qed.

Lemma presentations_are_not_read_witness :
  Upload.route "pptx"
    "application/vnd.openxmlformats-officedocument.presentationml.presentation"
  = if String.prefix "text/"
         "application/vnd.openxmlformats-officedocument.presentationml.presentation"
    then Upload.ReadText else Upload.Unsupported.
Proof.
  apply (presentations_are_not_read "pptx"
           "application/vnd.openxmlformats-officedocument.presentationml.presentation").
  left. reflexivity.
Defined.

(** X19: every file that is read as base64 was given the asset type of its
    extension family, and a PDF read that way always carries a MIME type:
    the browser's, or [application/pdf] when the browser reports none, so
    that a layer given this MIME type with no other shows the PDF carousel
    exactly when the browser reported none or [application/pdf]. *)
Theorem base64_files_are_typed (ext fileType : string) :
  Upload.route ext fileType = Upload.ReadBase64 →
  (Upload.detectAssetType ext = IMAGE ∨ Upload.detectAssetType ext = VIDEO
   ∨ Upload.detectAssetType ext = PODCAST
   ∨ (Upload.detectAssetType ext = DOCUMENT ∧ ext = "pdf"))
  ∧ (ext = "pdf" →
     Upload.base64MimeType ext fileType ≠ ""
     ∧ ∀ (p : Props) (st : State),
         mimeType p = Some (Upload.base64MimeType ext fileType) →
         ((∃ pages, render p st = PdfCarousel pages)
          ↔ fileType = "" ∨ fileType = "application/pdf")).
Proof.
  intros Hroute. split.
  - revert Hroute.
    unfold Upload.detectAssetType, Upload.route, Upload.includes.
    cbn [existsb]. case_ext ext; cbn; try discriminate; auto 6;
      destruct (String.prefix "text/" fileType); cbn; discriminate.
  - intros ->. unfold Upload.base64MimeType, JS.truthy_string. cbn.
    destruct (String.eqb_spec fileType "") as [->|Hne]; cbn.
    + split; [discriminate|]. intros p st Hmime.
      split; [auto|]. intros _. unfold render, isDoc, useCarousel, isPDF.
      rewrite Hmime. cbn. rewrite !orb_true_r. eauto.
    + split; [exact Hne|]. intros p st Hmime. split.
      * intros [pages Hr]. right. revert Hr. unfold render.
        destruct (isPDF p) eqn:Hpdf.
        { intros _. unfold isPDF in Hpdf. rewrite Hmime in Hpdf.
          apply String.eqb_eq in Hpdf. exact Hpdf. }
        destruct (isDoc p); [destruct (useCarousel p)|]; try discriminate.
        { destruct (htmlContent p) as [h|]; [destruct (JS.truthy_string h)|];
            discriminate. }
        destruct (isVideo p); discriminate.
      * intros [E | ->]; [contradiction|].
        unfold render, isDoc, useCarousel, isPDF. rewrite Hmime. cbn.
        rewrite !orb_true_r. eauto.
Qed.

Lemma base64_files_are_typed_witness :
  (Upload.detectAssetType "pdf" = IMAGE ∨ Upload.detectAssetType "pdf" = VIDEO
   ∨ Upload.detectAssetType "pdf" = PODCAST
   ∨ (Upload.detectAssetType "pdf" = DOCUMENT ∧ "pdf" = "pdf"))
  ∧ ("pdf" = "pdf" →
     Upload.base64MimeType "pdf" "" ≠ ""
     ∧ ∀ (p : Props) (st : State),
         mimeType p = Some (Upload.base64MimeType "pdf" "") →
         ((∃ pages, render p st = PdfCarousel pages)
          ↔ "" = "" ∨ "" = "application/pdf")).
Proof.
  apply (base64_files_are_typed "pdf" "").
  reflexivity.
Defined.

(** ** Category chart *)

Lemma countIssue_total (toLowerCase : string → string)
    (c : Chart.Categories) (issue : string) :
  (Chart.Brand (Chart.countIssue toLowerCase c issue)
   + Chart.Compliance (Chart.countIssue toLowerCase c issue)
   + Chart.Cultural (Chart.countIssue toLowerCase c issue)
   = S (Chart.Brand c + Chart.Compliance c + Chart.Cultural c))%nat.
Proof.
  unfold Chart.countIssue.
  destruct (_ || _ || _ || _ || _); [simpl; lia|].
  destruct (_ || _ || _ || _ || _); simpl; lia.
Qed.

Lemma countIssues_total (toLowerCase : string → string)
    (issues : list string) (c : Chart.Categories) :
  (Chart.Brand (foldl (Chart.countIssue toLowerCase) c issues)
   + Chart.Compliance (foldl (Chart.countIssue toLowerCase) c issues)
   + Chart.Cultural (foldl (Chart.countIssue toLowerCase) c issues)
   = Chart.Brand c + Chart.Compliance c + Chart.Cultural c + length issues)%nat.
Proof.
  revert c. induction issues as [|issue issues IH]; intros c; simpl; [lia|].
  rewrite IH, countIssue_total. lia.
Qed.

Lemma countItems_total (toLowerCase : string → string)
    (rawData : list Dashboard.HistoryItem) (c : Chart.Categories) :
  (Chart.Brand (foldl (Chart.countItem toLowerCase) c rawData)
   + Chart.Compliance (foldl (Chart.countItem toLowerCase) c rawData)
   + Chart.Cultural (foldl (Chart.countItem toLowerCase) c rawData)
   = Chart.Brand c + Chart.Compliance c + Chart.Cultural c
     + length (Chart.labels rawData))%nat.
Proof.
  revert c. unfold Chart.labels.
  induction rawData as [|h rawData IH]; intros c; cbn; [lia|].
  rewrite IH, length_app. unfold Chart.countItem.
  destruct (Dashboard.topIssues h) as [labels|]; cbn; [|lia].
  rewrite countIssues_total. lia.
Qed.

(** X20: the category chart counts every issue label of the window exactly
    once, as Brand, Compliance or Cultural, however lower-casing treats the
    label: the values of its slices add up to the number of labels, every
    slice shown has a positive value, and there are at most three slices
    (none for a window without labels). *)
Theorem category_slices_partition_labels (toLowerCase : string → string)
    (rawData : list Dashboard.HistoryItem) :
  sum_list (Chart.value <$> Chart.categoryBreakdown toLowerCase rawData)
  = length (Chart.labels rawData)
  ∧ Forall (λ c, (0 < Chart.value c)%nat)
           (Chart.categoryBreakdown toLowerCase rawData)
  ∧ (length (Chart.categoryBreakdown toLowerCase rawData) ≤ 3)%nat.
Proof.
  pose proof (countItems_total toLowerCase rawData
                (Chart.mkCategories 0 0 0)) as Htotal.
  unfold Chart.categoryBreakdown. cbn zeta.
  set (c := foldl (Chart.countItem toLowerCase) _ rawData) in *.
  cbn in Htotal. rewrite <- Htotal. cbn [List.filter Chart.value].
  destruct (Nat.ltb_spec 0 (Chart.Brand c)),
           (Nat.ltb_spec 0 (Chart.Compliance c)),
           (Nat.ltb_spec 0 (Chart.Cultural c));
    cbn; (split; [lia | split; [repeat constructor; cbn; lia | lia]]).
Qed.
